(** * TypebotContext: the editing session of the builder

    A shallow embedding of
    [apps/builder/contexts/TypebotContext/TypebotContext.tsx].

    The component keeps three views of one document:
    - the SWR cache entry ([typebot], [publishedTypebot], [webhooks], ...),
      which is the last loaded or persisted draft;
    - the working copy, the [present] of the undo history ([localTypebot])
      and the mutable cell [presentRef] ([currentTypebotRef]);
    - the remote store, reached through [updateTypebot],
      [createPublishedTypebot], [updatePublishedTypebot] and [saveWebhook].

    Every function of the component is a closure over the values of the
    render that created it.  The embedding makes the captured values an
    explicit argument ([Render]) and threads everything mutable through a
    state monad over [World]. *)

From stdpp Require Import base option list strings gmap.

Set Default Proof Using "Type".
Open Scope string_scope.

(** ** Data model *)

(** Modelled from the spec: the [Typebot] type of the [models] package is not
    part of the sources.  The record has the identity and owner-bound fields,
    the content graph (the blocks, variables and edges that the action
    bundles of the provider edit), and the fields of [UpdateTypebotPayload]
    and of [updateOnBothTypebots], which the source spreads into it. *)
Module Typebot.
Record t : Type := mk {
  id : string;
  ownerId : string;
  name : string;
  blocks : list string;
  variables : list string;
  edges : list string;
  theme : string;
  settings : string;
  publicId : option string;
  publishedTypebotId : option string;
  customDomain : option string;
}.

#[global] Instance eq_dec : EqDecision t.
Proof. solve_decision. Defined.
End Typebot.

(** Modelled from the spec: the [PublicTypebot] type of the [models] package,
    the published snapshot.  It has an identity of its own, refers to its
    document, and carries the projection of the document that is served. *)
Module PublicTypebot.
Record t : Type := mk {
  id : string;
  typebotId : string;
  name : string;
  blocks : list string;
  variables : list string;
  edges : list string;
  theme : string;
  settings : string;
  publicId : option string;
  customDomain : option string;
}.

#[global] Instance eq_dec : EqDecision t.
Proof. solve_decision. Defined.

(** [{ ...p, id }] *)
Definition with_id (i : string) (p : t) : t :=
  mk i (typebotId p) (name p) (blocks p) (variables p) (edges p)
     (theme p) (settings p) (publicId p) (customDomain p).
End PublicTypebot.

(** Modelled from the spec: the [Webhook] type of the [models] package, keyed
    by [id]. *)
Module Webhook.
Record t : Type := mk {
  id : string;
  url : option string;
  method : string;
  body : option string;
}.

#[global] Instance eq_dec : EqDecision t.
Proof. solve_decision. Defined.

(** [Partial<Webhook>]: an absent key is [None]. *)
Record partial : Type := mkPartial {
  p_id : option string;
  p_url : option string;
  p_method : option string;
  p_body : option string;
}.

(** [{ ...w, ...u }] *)
Definition merge (w : t) (u : partial) : t :=
  mk (default (id w) (p_id u))
     (if p_url u is Some x then Some x else url w)
     (default (method w) (p_method u))
     (if p_body u is Some x then Some x else body w).
End Webhook.

(** The [User] of the [db] package; only carried around. *)
Record User : Type := mkUser { userId : string; email : string }.

(** [UpdateTypebotPayload], widened by the [customDomain] key that
    [updateOnBothTypebots] passes through [updateLocalTypebot]; [customDomain]
    may be set to [null], hence the nested option. *)
Record UpdateTypebotPayload : Type := mkPayload {
  u_theme : option string;
  u_settings : option string;
  u_publicId : option string;
  u_name : option string;
  u_publishedTypebotId : option string;
  u_customDomain : option (option string);
}.

(** [{ ...typebot, ...updates }] *)
Definition spread (t : Typebot.t) (u : UpdateTypebotPayload) : Typebot.t :=
  Typebot.mk (Typebot.id t) (Typebot.ownerId t)
    (default (Typebot.name t) (u_name u))
    (Typebot.blocks t) (Typebot.variables t) (Typebot.edges t)
    (default (Typebot.theme t) (u_theme u))
    (default (Typebot.settings t) (u_settings u))
    (if u_publicId u is Some x then Some x else Typebot.publicId t)
    (if u_publishedTypebotId u is Some x then Some x
     else Typebot.publishedTypebotId t)
    (default (Typebot.customDomain t) (u_customDomain u)).

(** [{ ...publishedTypebot, ...updates }] with the keys of
    [updateOnBothTypebots]. *)
Definition spreadPublic (p : PublicTypebot.t) (u : UpdateTypebotPayload)
  : PublicTypebot.t :=
  PublicTypebot.mk (PublicTypebot.id p) (PublicTypebot.typebotId p)
    (default (PublicTypebot.name p) (u_name u))
    (PublicTypebot.blocks p) (PublicTypebot.variables p)
    (PublicTypebot.edges p) (PublicTypebot.theme p)
    (PublicTypebot.settings p)
    (if u_publicId u is Some x then Some x else PublicTypebot.publicId p)
    (default (PublicTypebot.customDomain p) (u_customDomain u)).

(** The value SWR holds for [/api/typebots/:id].  [typebot] is optional
    because [savePublishedTypebot] stores [currentTypebotRef.current as
    Typebot], a cast that does not exclude [undefined]. *)
Module Bundle.
Record t : Type := mk {
  typebot : option Typebot.t;
  webhooks : list Webhook.t;
  publishedTypebot : option PublicTypebot.t;
  owner : option User;
  isReadOnly : option bool;
}.
End Bundle.

(** A JavaScript [Error] as the services return it. *)
Record Error : Type := mkError { error_name : string; message : string }.

(** A call of [toast]; the hook is configured with [status: 'error']. *)
Record Toast : Type := mkToast {
  status : string;
  title : option string;
  description : string;
}.

(** The requests the component sends to the external store. *)
Inductive Request : Type :=
  | UpdateTypebot (id : string) (t : Typebot.t)
  | CreatePublishedTypebot (p : PublicTypebot.t)
  | UpdatePublishedTypebot (id : string) (p : PublicTypebot.t)
  | SaveWebhook (id : string) (u : Webhook.partial).

Definition isDraftWrite (q : Request) : bool :=
  match q with UpdateTypebot _ _ => true | _ => false end.

Definition isSnapshotCreate (q : Request) : bool :=
  match q with CreatePublishedTypebot _ => true | _ => false end.

(** ** The undo history ([useUndo]) *)

(** Modelled from the spec: [services/utils/useUndo] is not part of the
    sources.  Section 4.1 of the specification: [set] pushes the current value
    onto the past stack, replaces the current value and clears the future
    stack; [undo] is a no-op on an empty past stack, otherwise it moves the
    current value to the future stack and pops the past stack; [redo] mirrors
    it.  [presentRef] is the mutable reference to the latest current value. *)
Module History.
Record t : Type := mk {
  past : list (option Typebot.t);
  present : option Typebot.t;
  future : list (option Typebot.t);
}.

Definition init : t := mk [] None [].

Definition set (v : option Typebot.t) (h : t) : t :=
  mk (present h :: past h) v [].

Definition undo (h : t) : t :=
  match past h with
  | [] => h
  | p :: ps => mk ps p (present h :: future h)
  end.

Definition redo (h : t) : t :=
  match future h with
  | [] => h
  | f :: fs => mk (present h :: past h) f fs
  end.

Definition canUndo (h : t) : bool := negb (bool_decide (past h = [])).
Definition canRedo (h : t) : bool := negb (bool_decide (future h = [])).
End History.

(** ** The state of a session *)

(** What lives in the browser: React state, the ref, the SWR cache entry and
    the [beforeunload] listener of [preventUserFromRefreshing] (the DOM keeps
    at most one registration of a given listener, so a flag is enough). *)
Record Local : Type := mkLocal {
  history : History.t;
  presentRef : option Typebot.t;
  isSavingLoading : bool;
  isPublishing : bool;
  data : option Bundle.t;
  beforeunload : bool;
}.

(** The external store and the rest of the environment: the records it
    holds, the answers it is going to give (one entry of [faults] is consumed
    by each request, [Some e] rejects it; an exhausted list accepts), the
    identities [generate] is going to return, and the requests received so
    far with the answer each one got, latest first. *)
Record Remote : Type := mkRemote {
  drafts : gmap string Typebot.t;
  snapshots : gmap string PublicTypebot.t;
  hooks : gmap string Webhook.t;
  faults : list (option Error);
  uuids : nat → string;
  generated : nat;
  requests : list (Request * option Error);
}.

Record World : Type := mkWorld {
  local : Local;
  remote : Remote;
  toasts : list Toast;
  location : option string;
}.

Definition with_local (f : Local → Local) (w : World) : World :=
  mkWorld (f (local w)) (remote w) (toasts w) (location w).

Definition with_remote (f : Remote → Remote) (w : World) : World :=
  mkWorld (local w) (f (remote w)) (toasts w) (location w).

Definition set_history (h : History.t) (l : Local) : Local :=
  mkLocal h (presentRef l) (isSavingLoading l) (isPublishing l) (data l)
    (beforeunload l).

Definition set_presentRef (r : option Typebot.t) (l : Local) : Local :=
  mkLocal (history l) r (isSavingLoading l) (isPublishing l) (data l)
    (beforeunload l).

Definition set_isSavingLoading (b : bool) (l : Local) : Local :=
  mkLocal (history l) (presentRef l) b (isPublishing l) (data l)
    (beforeunload l).

Definition set_isPublishing (b : bool) (l : Local) : Local :=
  mkLocal (history l) (presentRef l) (isSavingLoading l) b (data l)
    (beforeunload l).

Definition set_data (d : option Bundle.t) (l : Local) : Local :=
  mkLocal (history l) (presentRef l) (isSavingLoading l) (isPublishing l) d
    (beforeunload l).

Definition set_beforeunload (b : bool) (l : Local) : Local :=
  mkLocal (history l) (presentRef l) (isSavingLoading l) (isPublishing l)
    (data l) b.

(** The values a render captures: what [useFetchedTypebot] returned and the
    [present] of the history. *)
Record Render : Type := mkRender {
  typebot : option Typebot.t;
  publishedTypebot : option PublicTypebot.t;
  webhooks : option (list Webhook.t);
  isLoading : bool;
  localTypebot : option Typebot.t;
}.

(** [useFetchedTypebot] and [useUndo], read at render time.  The fetch error
    is not modelled (no event makes the fetcher fail), so [isLoading] is
    [!data] and [onError] is never called. *)
Definition render (l : Local) : Render :=
  mkRender (data l ≫= Bundle.typebot)
           (data l ≫= Bundle.publishedTypebot)
           (Bundle.webhooks <$> data l)
           (bool_decide (data l = None))
           (History.present (history l)).

(** ** The monad of the component's functions *)

Definition M (A : Type) : Type := World → A * World.

#[global] Instance M_ret : MRet M := λ A a w, (a, w).
#[global] Instance M_bind : MBind M :=
  λ A B k m w, let '(a, w') := m w in k a w'.

Definition gets {A} (f : World → A) : M A := λ w, (f w, w).
Definition modify (f : World → World) : M unit := λ w, (tt, f w).

(** The resulting world of a computation. *)
Definition exec {A} (m : M A) (w : World) : World := (m w).2.

(** React setters, the toast, SWR's bound [mutate] (the cache entry is
    replaced by the given value) and the listener. *)
Definition setIsSavingLoading (b : bool) : M unit :=
  modify (with_local (set_isSavingLoading b)).

Definition setIsPublishing (b : bool) : M unit :=
  modify (with_local (set_isPublishing b)).

Definition toast (t : Toast) : M unit :=
  modify (λ w, mkWorld (local w) (remote w) (t :: toasts w) (location w)).

Definition toastError (e : Error) : M unit :=
  toast (mkToast "error" (Some (error_name e)) (message e)).

Definition mutate (b : Bundle.t) : M unit :=
  modify (with_local (set_data (Some b))).

Definition addBeforeunload : M unit :=
  modify (with_local (set_beforeunload true)).

Definition removeBeforeunload : M unit :=
  modify (with_local (set_beforeunload false)).

Definition routerReplace (url : string) : M unit :=
  modify (λ w, mkWorld (local w) (remote w) (toasts w) (Some url)).

(** [setLocalTypebot], the [set] of [useUndo]: the reference follows the
    new current value. *)
Definition setLocalTypebot (v : option Typebot.t) : M unit :=
  modify (with_local (λ l,
    set_presentRef v (set_history (History.set v (history l)) l))).

(** [generate] of [short-uuid]. *)
Definition generate : M string := λ w,
  let r := remote w in
  (uuids r (generated r),
   with_remote (λ _, mkRemote (drafts r) (snapshots r) (hooks r) (faults r)
                       (uuids r) (S (generated r)) (requests r)) w).

(** ** The external store *)

(** A request is logged and takes the next answer of the environment. *)
Definition receive (q : Request) (r : Remote) : option Error * Remote :=
  let e := mjoin (head (faults r)) in
  (e, mkRemote (drafts r) (snapshots r) (hooks r) (tail (faults r)) (uuids r)
        (generated r) ((q, e) :: requests r)).

Definition store_draft (t : Typebot.t) (r : Remote) : Remote :=
  mkRemote (<[Typebot.id t := t]> (drafts r)) (snapshots r) (hooks r)
    (faults r) (uuids r) (generated r) (requests r).

Definition store_snapshot (i : string) (p : PublicTypebot.t) (r : Remote)
  : Remote :=
  mkRemote (drafts r) (<[i := p]> (snapshots r)) (hooks r) (faults r)
    (uuids r) (generated r) (requests r).

Definition store_hook (i : string) (h : Webhook.t) (r : Remote) : Remote :=
  mkRemote (drafts r) (snapshots r) (<[i := h]> (hooks r)) (faults r)
    (uuids r) (generated r) (requests r).

(** [updateTypebot(id, typebot)]: [{ error }]. *)
Definition updateTypebot (i : string) (t : Typebot.t) : M (option Error) :=
  λ w,
  let '(e, r) := receive (UpdateTypebot i t) (remote w) in
  match e with
  | Some e => (Some e, with_remote (λ _, r) w)
  | None => (None, with_remote (λ _, store_draft t r) w)
  end.

(** [createPublishedTypebot(p)]: [{ data, error }]. *)
Definition createPublishedTypebot (p : PublicTypebot.t)
  : M (Error + PublicTypebot.t) := λ w,
  let '(e, r) := receive (CreatePublishedTypebot p) (remote w) in
  match e with
  | Some e => (inl e, with_remote (λ _, r) w)
  | None =>
      (inr p, with_remote (λ _, store_snapshot (PublicTypebot.id p) p r) w)
  end.

(** [updatePublishedTypebot(id, p)]: [{ error }]. *)
Definition updatePublishedTypebot (i : string) (p : PublicTypebot.t)
  : M (option Error) := λ w,
  let '(e, r) := receive (UpdatePublishedTypebot i p) (remote w) in
  match e with
  | Some e => (Some e, with_remote (λ _, r) w)
  | None => (None, with_remote (λ _, store_snapshot i p r) w)
  end.

(** [saveWebhook(id, updates)]: [{ data }], where [data.webhook] is the
    stored webhook after the update; no [data] when the request is
    rejected or the webhook is unknown. *)
Definition saveWebhook (i : string) (u : Webhook.partial)
  : M (option Webhook.t) := λ w,
  let '(e, r) := receive (SaveWebhook i u) (remote w) in
  match e, hooks r !! i with
  | None, Some h =>
      let h' := Webhook.merge h u in
      (Some h', with_remote (λ _, store_hook i h' r) w)
  | _, _ => (None, with_remote (λ _, r) w)
  end.

(** [deepEqual] of [fast-equals], on [Typebot | undefined]. *)
Definition deepEqual (a b : option Typebot.t) : bool := bool_decide (a = b).

(** ** The flush *)

(** [saveTypebot]: [r] is the render whose closure is called. *)
Definition saveTypebot (r : Render) : M unit :=
  typebotToSave ← gets (λ w, presentRef (local w));
  if deepEqual (typebot r) typebotToSave then mret tt
  else
    match typebotToSave with
    | None => mret tt
    | Some typebotToSave =>
        setIsSavingLoading true;;
        error ← updateTypebot (Typebot.id typebotToSave) typebotToSave;
        setIsSavingLoading false;;
        match error with
        | Some error => toastError error
        | None =>
            mutate (Bundle.mk (Some typebotToSave) (default [] (webhooks r))
                      None None None);;
            removeBeforeunload
        end
    end.

(** ** Pure helpers of the services *)

(** The helpers of [services/publicTypebot] and [services/typebots/typebots]
    that the component calls are not part of the sources; the component is
    embedded over any implementation of them. *)
Class Services : Type := {
  parseDefaultPublicId : string → string → string;
  parseTypebotToPublicTypebot : Typebot.t → PublicTypebot.t;
  parsePublicTypebotToTypebot : PublicTypebot.t → Typebot.t → Typebot.t;
  checkIfTypebotsAreEqual : Typebot.t → Typebot.t → bool;
  checkIfPublished : Typebot.t → PublicTypebot.t → bool;
}.

(** The publication-relevant fields (specification, 4.2): content graph,
    theme, settings and public identifier. *)
Definition Publication : Type :=
  list string * list string * list string * string * string * option string.

Definition publicationOfTypebot (t : Typebot.t) : Publication :=
  (Typebot.blocks t, Typebot.variables t, Typebot.edges t, Typebot.theme t,
   Typebot.settings t, Typebot.publicId t).

Definition publicationOfPublic (p : PublicTypebot.t) : Publication :=
  (PublicTypebot.blocks p, PublicTypebot.variables p, PublicTypebot.edges p,
   PublicTypebot.theme p, PublicTypebot.settings p, PublicTypebot.publicId p).

(** Modelled from the spec: the helpers of [services/publicTypebot] and
    [services/typebots/typebots].  The public identifier is a slug derived
    from name and id; the snapshot of a document is its projection (the
    caller sets the identity); the document restored from a snapshot takes
    what the snapshot carries and keeps the identity and owner-bound fields
    of the existing document; two documents are equal when they are deeply
    equal; a document is published when its publication-relevant fields
    match those of the snapshot. *)
#[global] Instance specServices : Services := {|
  parseDefaultPublicId name id := name +:+ "-" +:+ id;
  parseTypebotToPublicTypebot t :=
    PublicTypebot.mk "" (Typebot.id t) (Typebot.name t) (Typebot.blocks t)
      (Typebot.variables t) (Typebot.edges t) (Typebot.theme t)
      (Typebot.settings t) (Typebot.publicId t) (Typebot.customDomain t);
  parsePublicTypebotToTypebot p existing :=
    Typebot.mk (Typebot.id existing) (Typebot.ownerId existing)
      (PublicTypebot.name p) (PublicTypebot.blocks p)
      (PublicTypebot.variables p) (PublicTypebot.edges p)
      (PublicTypebot.theme p) (PublicTypebot.settings p)
      (PublicTypebot.publicId p) (Typebot.publishedTypebotId existing)
      (PublicTypebot.customDomain p);
  checkIfTypebotsAreEqual a b := bool_decide (a = b);
  checkIfPublished t p :=
    bool_decide (publicationOfTypebot t = publicationOfPublic p);
|}.

(** ** The component *)

(** [newLocalTypebot.publicId = newPublicId] *)
Definition with_publicId (i : string) (t : Typebot.t) : Typebot.t :=
  Typebot.mk (Typebot.id t) (Typebot.ownerId t) (Typebot.name t)
    (Typebot.blocks t) (Typebot.variables t) (Typebot.edges t)
    (Typebot.theme t) (Typebot.settings t) (Some i)
    (Typebot.publishedTypebotId t) (Typebot.customDomain t).

(** [savePublishedTypebot] *)
Definition savePublishedTypebot (r : Render)
    (newPublishedTypebot : PublicTypebot.t) : M unit :=
  setIsPublishing true;;
  error ← updatePublishedTypebot (PublicTypebot.id newPublishedTypebot)
            newPublishedTypebot;
  setIsPublishing false;;
  match error with
  | Some error => toastError error
  | None =>
      current ← gets (λ w, presentRef (local w));
      mutate (Bundle.mk current (default [] (webhooks r))
                (Some newPublishedTypebot) None None)
  end.

(** [updateLocalTypebot], the [update] of the specification. *)
Definition updateLocalTypebot (r : Render) (updates : UpdateTypebotPayload)
  : M unit :=
  match localTypebot r with
  | Some localTypebot => setLocalTypebot (Some (spread localTypebot updates))
  | None => mret tt
  end.

(** [updateWebhook] *)
Definition updateWebhook (r : Render) (webhookId : string)
    (updates : Webhook.partial) : M unit :=
  match typebot r with
  | None => mret tt
  | Some typebot =>
      data ← saveWebhook webhookId updates;
      match data with
      | Some webhook =>
          mutate (Bundle.mk (Some typebot)
                    ((λ w, if bool_decide (Webhook.id w = webhookId)
                           then webhook else w) <$> default [] (webhooks r))
                    (publishedTypebot r) None None)
      | None => mret tt
      end
  end.

Section WithServices.
Context {services : Services}.

(** [isPublished] *)
Definition isPublished (r : Render) : bool :=
  match typebot r, publishedTypebot r with
  | Some t, Some p => checkIfPublished t p
  | _, _ => false
  end.

(** The effect on [[localTypebot]]: the unsaved-changes guard. *)
Definition unsavedChangesEffect (r : Render) : M unit :=
  match localTypebot r, typebot r with
  | Some localTypebot, Some typebot =>
      modify (with_local (set_presentRef (Some localTypebot)));;
      if negb (checkIfTypebotsAreEqual localTypebot typebot)
      then removeBeforeunload;; addBeforeunload
      else removeBeforeunload
  | _, _ => mret tt
  end.

(** The effect on [[isLoading]]: seeding the working copy. *)
Definition loadEffect (r : Render) : M unit :=
  if isLoading r then mret tt
  else
    match typebot r with
    | None =>
        toast (mkToast "info" None "Couldn't find typebot");;
        routerReplace "/typebots"
    | Some typebot => setLocalTypebot (Some typebot)
    end.

(** [publishTypebot] *)
Definition publishTypebot (r : Render) : M unit :=
  match localTypebot r with
  | None => mret tt
  | Some localTypebot =>
      publishedTypebotId ← generate;
      (match publishedTypebot r, Typebot.publishedTypebotId localTypebot with
       | Some publishedTypebot, None =>
           updateLocalTypebot r
             (mkPayload None None None None
                (Some (PublicTypebot.id publishedTypebot)) None);;
           saveTypebot r
       | _, _ => mret tt
       end);;
      newLocalTypebot ←
        match publishedTypebot r with
        | None =>
            let newPublicId :=
              parseDefaultPublicId (Typebot.name localTypebot)
                (Typebot.id localTypebot) in
            updateLocalTypebot r
              (mkPayload None None (Some newPublicId) None
                 (Some publishedTypebotId) None);;
            saveTypebot r;;
            mret (with_publicId newPublicId localTypebot)
        | Some _ => mret localTypebot
        end;
      match publishedTypebot r with
      | Some publishedTypebot =>
          savePublishedTypebot r
            (PublicTypebot.with_id (PublicTypebot.id publishedTypebot)
               (parseTypebotToPublicTypebot newLocalTypebot))
      | None =>
          setIsPublishing true;;
          res ← createPublishedTypebot
                  (PublicTypebot.with_id publishedTypebotId
                     (parseTypebotToPublicTypebot newLocalTypebot));
          setIsPublishing false;;
          match res with
          | inl error => toastError error
          | inr data =>
              mutate (Bundle.mk (Some localTypebot)
                        (default [] (webhooks r)) (Some data) None None)
          end
      end
  end.

(** [updateOnBothTypebots] *)
Definition updateOnBothTypebots (r : Render) (updates : UpdateTypebotPayload)
  : M unit :=
  updateLocalTypebot r updates;;
  saveTypebot r;;
  match publishedTypebot r with
  | None => mret tt
  | Some publishedTypebot =>
      savePublishedTypebot r (spreadPublic publishedTypebot updates)
  end.

(** [restorePublishedTypebot] *)
Definition restorePublishedTypebot (r : Render) : M unit :=
  match publishedTypebot r, localTypebot r with
  | Some publishedTypebot, Some localTypebot =>
      setLocalTypebot
        (Some (parsePublicTypebotToTypebot publishedTypebot localTypebot));;
      saveTypebot r
  | _, _ => mret tt
  end.

(** ** The session as a machine *)

(** [undo] and [redo] of [useUndo]; the reference follows the current
    value. *)
Definition undo : M unit :=
  modify (with_local (λ l,
    let h := History.undo (history l) in
    set_presentRef (History.present h) (set_history h l))).

Definition redo : M unit :=
  modify (with_local (λ l,
    let h := History.redo (history l) in
    set_presentRef (History.present h) (set_history h l))).

(** The render at mount, before SWR has data: the listeners of
    [visibilitychange] and [routeChangeStart] are registered by effects with
    no dependency, so they keep calling the [saveTypebot] of this render. *)
Definition mountRender : Render := mkRender None None None true None.

(** What happens to a session: the fetcher of SWR resolves (first load or
    revalidation), the host signals that the tab was hidden or that the route
    is about to change, or a consumer of the context calls one of its
    functions ([CallSave] is also what the debounced effect of [useAutoSave]
    does, through the [handler] of the render it runs in). *)
Inductive Event : Type :=
  | Fetched (b : Bundle.t)
  | VisibilityChange
  | RouteChangeStart
  | CallUpdateTypebot (updates : UpdateTypebotPayload)
  | CallSave
  | CallUndo
  | CallRedo
  | CallPublishTypebot
  | CallRestorePublishedTypebot
  | CallUpdateOnBothTypebots (updates : UpdateTypebotPayload)
  | CallUpdateWebhook (webhookId : string) (updates : Webhook.partial).

Definition handle (e : Event) (r : Render) : M unit :=
  match e with
  | Fetched b => mutate b
  | VisibilityChange | RouteChangeStart => saveTypebot mountRender
  | CallUpdateTypebot u => updateLocalTypebot r u
  | CallSave => saveTypebot r
  | CallUndo => undo
  | CallRedo => redo
  | CallPublishTypebot => publishTypebot r
  | CallRestorePublishedTypebot => restorePublishedTypebot r
  | CallUpdateOnBothTypebots u => updateOnBothTypebots r u
  | CallUpdateWebhook i u => updateWebhook r i u
  end.

(** The render that follows an event runs the effects whose dependency
    changed since the render [before] it.  Two approximations of React:
    dependencies are compared as values, not as references, and the effects
    run once the function has returned, not at the render that happens
    while it awaits the store; the state of the unload listener after a
    function that sets the working copy and then awaits can differ. *)
Definition commit (before : Render) : M unit :=
  r ← gets (λ w, render (local w));
  (if bool_decide (isLoading r = isLoading before) then mret tt
   else loadEffect r);;
  r ← gets (λ w, render (local w));
  if bool_decide (localTypebot r = localTypebot before) then mret tt
  else unsavedChangesEffect r.

(** One event: the function called is the closure of the current render,
    it runs to completion, and the component renders again. *)
Definition step (e : Event) (w : World) : World :=
  let r := render (local w) in
  exec (handle e r;; commit r) w.

Definition run (es : list Event) (w : World) : World :=
  foldl (λ w e, step e w) w es.

Inductive reachable (w0 : World) : World → Prop :=
  | reachable_start : reachable w0 w0
  | reachable_step w e : reachable w0 w → reachable w0 (step e w).

End WithServices.

(** A session that has just been mounted, in front of a given store. *)
Definition mounted (r : Remote) : World :=
  mkWorld (mkLocal History.init None false false None false) r [] None.

(** ** Notions used in the statements *)

(** The world a flush that sends [t] ends in. *)
Definition flushed (r : Render) (t : Typebot.t) (w : World) : World :=
  let rem := (receive (UpdateTypebot (Typebot.id t) t) (remote w)).2 in
  match mjoin (head (faults (remote w))) with
  | Some e =>
      mkWorld (set_isSavingLoading false (local w)) rem
        (mkToast "error" (Some (error_name e)) (message e) :: toasts w)
        (location w)
  | None =>
      mkWorld
        (mkLocal (history (local w)) (presentRef (local w)) false
           (isPublishing (local w))
           (Some (Bundle.mk (Some t) (default [] (webhooks r)) None None None))
           false)
        (store_draft t rem) (toasts w) (location w)
  end.

(** No flush and no publication is in flight. *)
Definition idle (w : World) : Prop :=
  isSavingLoading (local w) = false ∧ isPublishing (local w) = false.

(** The identity [generate] returns next. *)
Definition nextUuid (w : World) : string :=
  uuids (remote w) (generated (remote w)).

(** The document and the snapshot of the publish-new path. *)
Definition identified {services : Services}
    (l : Typebot.t) (fresh : string) : Typebot.t :=
  spread l
    (mkPayload None None
       (Some (parseDefaultPublicId (Typebot.name l) (Typebot.id l))) None
       (Some fresh) None).

Definition firstSnapshot {services : Services}
    (l : Typebot.t) (fresh : string) : PublicTypebot.t :=
  PublicTypebot.with_id fresh
    (parseTypebotToPublicTypebot
       (with_publicId (parseDefaultPublicId (Typebot.name l) (Typebot.id l))
          l)).

(** The snapshot of the publish-update path. *)
Definition nextSnapshot {services : Services}
    (l : Typebot.t) (p : PublicTypebot.t)
  : PublicTypebot.t :=
  PublicTypebot.with_id (PublicTypebot.id p) (parseTypebotToPublicTypebot l).

(** The working copy records a snapshot identity under which the store
    holds nothing. *)
Definition danglingReference (w : World) : bool :=
  match History.present (history (local w)) ≫= Typebot.publishedTypebotId with
  | Some i => bool_decide (snapshots (remote w) !! i = None)
  | None => false
  end.

(** A computation sends only requests that satisfy [P], and leaves the
    earlier ones in the log. *)
Definition sends {A} (P : Request → Prop) (m : M A) : Prop :=
  ∀ w, ∃ sent,
    requests (remote (exec m w)) = (sent ++ requests (remote w))%list
    ∧ Forall (λ qe, P qe.1) sent.

(** The reference holds what the history shows as current. *)
Definition inSync (w : World) : Prop :=
  presentRef (local w) = History.present (history (local w)).

(** A computation keeps an invariant of the world. *)
Definition keeps {A} (I : World → Prop) (m : M A) : Prop :=
  ∀ w, I w → I (exec m w).

(** A request is addressed to the record it carries. *)
Definition wellAddressed (q : Request) : Prop :=
  match q with
  | UpdateTypebot i t => i = Typebot.id t
  | UpdatePublishedTypebot i p => i = PublicTypebot.id p
  | CreatePublishedTypebot _ | SaveWebhook _ _ => True
  end.

(** ** A concrete session, for examples *)

Module Demo.

Definition doc : Typebot.t :=
  Typebot.mk "tb1" "alice" "My bot" ["b1"] ["v1"] ["e1"] "light" "default"
    None None None.

Definition rename : UpdateTypebotPayload :=
  mkPayload None None None (Some "X") None None.

Definition renamed : Typebot.t := spread doc rename.

Definition boom : Error := mkError "Error" "Internal Server Error".

Definition hook1 : Webhook.t := Webhook.mk "wh1" None "POST" None.
Definition hook2 : Webhook.t := Webhook.mk "wh2" None "GET" None.

(** A store that holds the draft and two webhooks, and gives the listed
    answers. *)
Definition store (answers : list (option Error)) : Remote :=
  mkRemote {[ "tb1" := doc ]} ∅ {[ "wh1" := hook1; "wh2" := hook2 ]} answers
    (λ n, if n is 0 then "snap-a" else "snap-b") 0 [].

Definition bundle : Bundle.t :=
  Bundle.mk (Some doc) [hook1; hook2] None (Some (mkUser "alice" "a@b.c"))
    (Some false).

(** The session once the document is loaded. *)
Definition loaded (answers : list (option Error)) : World :=
  run [Fetched bundle] (mounted (store answers)).

(** The session after the document was renamed. *)
Definition edited (answers : list (option Error)) : World :=
  run [Fetched bundle; CallUpdateTypebot rename] (mounted (store answers)).

(** The snapshot of [doc] with identity [snap-0], as an earlier publication
    left it, and a session loaded in front of it. *)
Definition snapshot : PublicTypebot.t :=
  PublicTypebot.with_id "snap-0" (parseTypebotToPublicTypebot doc).

Definition publishedStore (answers : list (option Error)) : Remote :=
  mkRemote {[ "tb1" := doc ]} {[ "snap-0" := snapshot ]} ∅ answers
    (λ n, if n is 0 then "snap-a" else "snap-b") 0 [].

Definition publishedBundle : Bundle.t :=
  Bundle.mk (Some doc) [] (Some snapshot) None None.

Definition republishing (answers : list (option Error)) : World :=
  run [Fetched publishedBundle; CallUpdateTypebot rename]
    (mounted (publishedStore answers)).

(** The same session after the rename was flushed and the cache was
    revalidated. *)
Definition republished (answers : list (option Error)) : World :=
  run [Fetched publishedBundle; CallUpdateTypebot rename; CallSave;
       Fetched (Bundle.mk (Some renamed) [] (Some snapshot) None None)]
    (mounted (publishedStore answers)).

(** A published document: it has a public id of its own choice and records
    the identity of its snapshot, which the store holds.  The session loads
    it, changes the theme and flushes; the store accepts. *)
Definition live : Typebot.t :=
  Typebot.mk "tb1" "alice" "My bot" ["b1"] ["v1"] ["e1"] "light" "default"
    (Some "my-bot") (Some "snap-0") None.

Definition liveSnapshot : PublicTypebot.t :=
  PublicTypebot.with_id "snap-0" (parseTypebotToPublicTypebot live).

Definition retheme : UpdateTypebotPayload :=
  mkPayload (Some "dark") None None None None None.

Definition rethemed : Typebot.t := spread live retheme.

Definition liveStore (answers : list (option Error)) : Remote :=
  mkRemote {[ "tb1" := live ]} {[ "snap-0" := liveSnapshot ]} ∅ answers
    (λ n, if n is 0 then "snap-a" else "snap-b") 0 [].

Definition liveFlushed (answers : list (option Error)) : World :=
  run [Fetched (Bundle.mk (Some live) [] (Some liveSnapshot) None None);
       CallUpdateTypebot retheme; CallSave]
    (mounted (liveStore answers)).

(** The same session once SWR has revalidated the entry. *)
Definition liveRevalidated (answers : list (option Error)) : World :=
  run [Fetched (Bundle.mk (Some live) [] (Some liveSnapshot) None None);
       CallUpdateTypebot retheme; CallSave;
       Fetched (Bundle.mk (Some rethemed) [] (Some liveSnapshot) None None)]
    (mounted (liveStore answers)).

(** A document that records the identity of [snapshot], renamed since, in
    front of a store that holds both. *)
Definition recorded : Typebot.t :=
  spread doc (mkPayload None None None None (Some "snap-0") None).

Definition recordedSession (answers : list (option Error)) : World :=
  run [Fetched (Bundle.mk (Some recorded) [] (Some snapshot) None None);
       CallUpdateTypebot rename]
    (mounted (mkRemote {[ "tb1" := recorded ]} {[ "snap-0" := snapshot ]} ∅
                answers (λ n, if n is 0 then "snap-a" else "snap-b") 0 [])).

End Demo.

(** * Properties *)

(** ** The flush, case by case *)

Ltac unfold_monad :=
  unfold exec, gets, modify, mbind, M_bind, mret, M_ret in *.

(** Unfolding the component down to the state it threads. *)
Ltac unfold_ops :=
  unfold publishTypebot, updateOnBothTypebots, restorePublishedTypebot,
    savePublishedTypebot, updateLocalTypebot, updateWebhook, undo, redo,
    loadEffect, unsavedChangesEffect, exec;
  unfold generate, setLocalTypebot, setIsPublishing, createPublishedTypebot,
    updatePublishedTypebot, saveWebhook, receive, toastError, toast, mutate,
    routerReplace, removeBeforeunload, addBeforeunload;
  unfold_monad.

(** Case analysis on the answer of the store to the request at hand. *)
Ltac answer :=
  match goal with
  | |- context [mjoin (head (faults ?r))] =>
      destruct (mjoin (head (faults r)))
  end.

Lemma bind_run {A B} (m : M A) (k : A → M B) w :
  (m ≫= k) w = k (m w).1 (m w).2.
Proof. unfold mbind, M_bind. by destruct (m w). Qed.

Lemma exec_bind {A B} (m : M A) (k : A → M B) w :
  exec (m ≫= k) w = exec (k (m w).1) (m w).2.
Proof. unfold exec. by rewrite bind_run. Qed.

Lemma saveTypebot_clean r w :
  typebot r = presentRef (local w) → saveTypebot r w = (tt, w).
Proof.
  intros Heq. unfold saveTypebot, deepEqual. unfold_monad.
  by rewrite bool_decide_eq_true_2.
Qed.

Lemma saveTypebot_undefined r w :
  presentRef (local w) = None → saveTypebot r w = (tt, w).
Proof.
  intros Href. unfold saveTypebot, deepEqual. unfold_monad.
  rewrite Href. by case_bool_decide.
Qed.

Lemma saveTypebot_dirty r w t :
  presentRef (local w) = Some t → typebot r ≠ Some t →
  saveTypebot r w = (tt, flushed r t w).
Proof.
  intros Href Hne. unfold saveTypebot, deepEqual. unfold_monad.
  rewrite Href, bool_decide_eq_false_2 by done.
  unfold flushed, updateTypebot, receive. cbn.
  by destruct (mjoin (head (faults (remote w)))).
Qed.

(** The three cases are all there is. *)
Lemma saveTypebot_cases r w :
  saveTypebot r w = (tt, w)
  ∨ ∃ t, presentRef (local w) = Some t ∧ typebot r ≠ Some t
         ∧ saveTypebot r w = (tt, flushed r t w).
Proof.
  destruct (presentRef (local w)) as [t|] eqn:Href.
  - destruct (decide (typebot r = Some t)) as [Heq|Hne].
    + left. apply saveTypebot_clean. congruence.
    + right. exists t. repeat split; [done|]. by apply saveTypebot_dirty.
  - left. by apply saveTypebot_undefined.
Qed.

Lemma flushed_requests r t w :
  requests (remote (flushed r t w))
  = (UpdateTypebot (Typebot.id t) t, mjoin (head (faults (remote w))))
    :: requests (remote w).
Proof.
  unfold flushed, receive. cbn.
  by destruct (mjoin (head (faults (remote w)))).
Qed.

(** A closure of an older render compares against the baseline it captured:
    the listener of [visibilitychange], called when the cache has caught up
    with the working copy, still sends the document. *)
Remark saveTypebot_stale_render :
  let w := Demo.loaded [] in
  typebot (render (local w)) = presentRef (local w)
  ∧ requests (remote (@step specServices VisibilityChange w))
    = [(UpdateTypebot "tb1" Demo.doc, None)].
Proof. by vm_compute. Qed.

(** The value a flush hands to [mutate] has a document and webhooks only:
    after an accepted flush the session sees no snapshot until SWR has
    revalidated the entry. *)
Remark saveTypebot_forgets_snapshot :
  let w := Demo.republishing [] in
  publishedTypebot (render (local w)) = Some Demo.snapshot
  ∧ publishedTypebot (render (local (@step specServices CallSave w))) = None
  ∧ snapshots (remote (@step specServices CallSave w)) !! "snap-0"
    = Some Demo.snapshot.
Proof. by vm_compute. Qed.

(** ** The flags at rest *)

(** Every function of the component lowers the flag it raised before it
    returns, so between two events no flag is up. *)
Lemma saveTypebot_idle r w : idle w → idle (exec (saveTypebot r) w).
Proof.
  intros [Hs Hp]. unfold exec, idle.
  destruct (saveTypebot_cases r w) as [H|(t & _ & _ & H)]; rewrite H; [done|].
  unfold flushed. by destruct (mjoin (head (faults (remote w)))).
Qed.

Ltac idle_flush r :=
  match goal with
  | |- context [saveTypebot r ?ws] =>
      let H := fresh "Hflushed" in
      assert (H : idle (exec (saveTypebot r) ws))
        by (by apply saveTypebot_idle);
      unfold exec in H; destruct (saveTypebot r ws) as [[] ?wf];
      cbn [fst snd] in H |- *; destruct H
  end.

Section Idle.
Context {services : Services}.

Lemma commit_idle r w : idle w → idle (exec (commit r) w).
Proof.
  intros [Hs Hp]. unfold commit, idle. unfold_ops. cbn.
  repeat (case_match; simplify_eq/=); done.
Qed.

Lemma handle_idle e r w : idle w → idle (exec (handle e r) w).
Proof.
  intros Hidle.
  destruct e; cbn [handle]; try exact (saveTypebot_idle _ _ Hidle);
    unfold_ops; unfold idle; destruct Hidle as [Hs Hp]; try done.
  - by case_match; cbn.
  - destruct (localTypebot r) as [l|]; [|done].
    destruct (publishedTypebot r) as [p|];
      [destruct (Typebot.publishedTypebotId l)|]; cbn -[saveTypebot];
      try idle_flush r; by answer; cbn.
  - destruct (publishedTypebot r), (localTypebot r); cbn -[saveTypebot];
      try done; by idle_flush r.
  - destruct (localTypebot r) as [l|]; cbn -[saveTypebot];
      idle_flush r; destruct (publishedTypebot r); cbn; try done;
      by answer; cbn.
  - destruct (typebot r); [|done]. cbn. answer; cbn; [done|].
    by destruct (hooks (remote w) !! webhookId); cbn.
Qed.

Lemma step_idle e w : idle w → idle (step e w).
Proof.
  intros Hidle. unfold step. rewrite exec_bind.
  apply commit_idle. by apply handle_idle.
Qed.

Lemma reachable_idle rem w : reachable (mounted rem) w → idle w.
Proof. induction 1; [done|by apply step_idle]. Qed.

End Idle.

(** ** The flush as an event *)

(** Once the entry is loaded, the render that follows a flush runs no
    effect: the event is the call. *)
Lemma step_CallSave {services : Services} w :
  is_Some (data (local w)) →
  step CallSave w = exec (saveTypebot (render (local w))) w.
Proof.
  intros [b Hb]. unfold step. cbn [handle]. rewrite exec_bind.
  set (r := render (local w)).
  assert (Hsame : is_Some (data (local (saveTypebot r w).2))
                  ∧ history (local (saveTypebot r w).2) = history (local w)).
  { destruct (saveTypebot_cases r w) as [Hs|(t & _ & _ & Hs)]; rewrite Hs;
      cbn [snd].
    - by rewrite Hb.
    - unfold flushed. by destruct (mjoin (head (faults (remote w)))); cbn;
        rewrite ?Hb. }
  destruct Hsame as [[b' Hb'] Hhistory].
  unfold exec at 2. destruct (saveTypebot r w) as [[] w1]. cbn [fst snd] in *.
  unfold commit, exec. unfold_monad. cbn.
  rewrite Hb', Hb. cbn.
  rewrite (bool_decide_eq_true_2 (false = false)) by done. cbn.
  by rewrite Hhistory, bool_decide_eq_true_2.
Qed.

(** ** Claims about the flush *)

(** C10. When the working-copy reference holds no value, [saveTypebot]
    returns without a request and without touching any state, the
    saving flag included; and every request a flush does send carries the
    document the reference held, so [updateTypebot] is never called on an
    undefined payload. *)
Theorem saveTypebot_without_working_copy :
  (∀ r w, presentRef (local w) = None → saveTypebot r w = (tt, w))
  ∧ (∀ r w q e,
       (q, e) ∈ requests (remote (exec (saveTypebot r) w)) →
       (q, e) ∈ requests (remote w)
       ∨ ∃ t, presentRef (local w) = Some t
              ∧ q = UpdateTypebot (Typebot.id t) t).
Proof.
  split; [apply saveTypebot_undefined|].
  intros r w q e Hin. unfold exec in Hin.
  destruct (saveTypebot_cases r w) as [Hs|(t & Href & _ & Hs)];
    rewrite Hs in Hin; [by left|].
  cbn in Hin. rewrite flushed_requests in Hin.
  apply elem_of_cons in Hin as [[= -> _]|Hin]; [right; eauto|by left].
Qed.

Lemma saveTypebot_without_working_copy_witness :
  presentRef (local (mounted (Demo.store []))) = None
  ∧ saveTypebot (render (local (Demo.loaded []))) (mounted (Demo.store []))
    = (tt, mounted (Demo.store [])).
Proof.
  split; [reflexivity|].
  apply (proj1 saveTypebot_without_working_copy). reflexivity.
Defined.

(** C1, as the code breaks it.  A session has loaded its document and
    nothing was edited: the working copy equals the baseline and nothing was
    sent.  The tab is hidden: the listener, which calls the [saveTypebot] of
    the render at mount, sends the document.  The route changes: it is sent
    again.  And one closure of an edited session, called twice in a row with
    no edit in between, sends the working copy twice although the store
    accepted the first write. *)
Lemma flush_through_kept_closure_writes_again :
  let w := Demo.loaded [] in
  let v := Demo.edited [] in
  History.present (history (local w)) = Some Demo.doc
  ∧ presentRef (local w) = Some Demo.doc
  ∧ typebot (render (local w)) = Some Demo.doc
  ∧ requests (remote w) = []
  ∧ requests (remote (@run specServices [VisibilityChange] w))
    = [(UpdateTypebot "tb1" Demo.doc, None)]
  ∧ requests (remote (@run specServices [VisibilityChange; RouteChangeStart] w))
    = [(UpdateTypebot "tb1" Demo.doc, None);
       (UpdateTypebot "tb1" Demo.doc, None)]
  ∧ requests
      (remote (exec (saveTypebot (render (local v)))
                 (exec (saveTypebot (render (local v))) v)))
    = [(UpdateTypebot "tb1" Demo.renamed, None);
       (UpdateTypebot "tb1" Demo.renamed, None)].
Proof. by vm_compute. Qed.

(** X15. A flush whose closure captured a baseline equal to what the
    reference holds sends nothing and changes nothing.  Hence two flushes in
    a row, each through the closure of the then-current render and with no
    edit in between, send exactly one write when the store accepts it: the
    first one sends the working copy, the second one finds the baseline
    caught up.  The same holds of two [save] events of a loaded session. *)
Theorem saveTypebot_idempotent :
  (∀ r w, typebot r = presentRef (local w) → saveTypebot r w = (tt, w))
  ∧ (∀ w t,
       presentRef (local w) = Some t →
       typebot (render (local w)) ≠ Some t →
       mjoin (head (faults (remote w))) = None →
       let w1 := exec (saveTypebot (render (local w))) w in
       let w2 := exec (saveTypebot (render (local w1))) w1 in
       w2 = w1
       ∧ requests (remote w2)
         = (UpdateTypebot (Typebot.id t) t, None) :: requests (remote w)
       ∧ ∀ services : Services,
           is_Some (data (local w)) → run [CallSave; CallSave] w = w2).
Proof.
  split; [apply saveTypebot_clean|].
  intros w t Href Hne Hok w1 w2.
  assert (Hloaded : is_Some (data (local w)) → is_Some (data (local w1))).
  { intros _. unfold w1, exec. rewrite (saveTypebot_dirty _ _ t) by done.
    unfold flushed. by rewrite Hok. }
  cut (w2 = w1
       ∧ requests (remote w2)
         = (UpdateTypebot (Typebot.id t) t, None) :: requests (remote w)).
  { intros [Hw2 Hreq]. split_and!; [done..|].
    intros services Hdata. unfold run. cbn [foldl].
    rewrite (step_CallSave w) by done. fold w1.
    by rewrite (step_CallSave w1) by auto. }
  assert (Hw1 : w1 = flushed (render (local w)) t w).
  { unfold w1, exec. by rewrite (saveTypebot_dirty _ _ t). }
  assert (Hclean : typebot (render (local w1)) = presentRef (local w1)).
  { rewrite Hw1. unfold flushed. rewrite Hok. cbn. done. }
  split.
  - unfold w2, exec. by rewrite saveTypebot_clean.
  - unfold w2, exec. rewrite saveTypebot_clean by done. cbn.
    rewrite Hw1, flushed_requests. by rewrite Hok.
Qed.

Lemma saveTypebot_idempotent_witness :
  let w := Demo.edited [] in
  let w1 := exec (saveTypebot (render (local w))) w in
  let w2 := exec (saveTypebot (render (local w1))) w1 in
  w2 = w1
  ∧ requests (remote w2) = [(UpdateTypebot "tb1" Demo.renamed, None)]
  ∧ requests (remote (@run specServices [CallSave; CallSave] w))
    = [(UpdateTypebot "tb1" Demo.renamed, None)].
Proof.
  destruct (proj2 saveTypebot_idempotent (Demo.edited []) Demo.renamed)
    as (Hsame & Hrequests & Hrun);
    [reflexivity | by vm_compute | reflexivity |].
  cbv zeta. split_and!; [exact Hsame | exact Hrequests |].
  rewrite (Hrun specServices) by (eexists; reflexivity). exact Hrequests.
Defined.

(** C4. When the store rejects the write of a flush, the error is shown as
    a toast with its name as title and its message as description, and the
    local state stays as it was: history, working-copy reference, baseline,
    unload listener and publishing flag are unchanged, and the saving flag is
    down again, so nothing at all changed if it was down before, as it is in
    every state a mounted session reaches.  The store
    keeps its drafts, and the next flush sends the same document again. *)
Theorem saveTypebot_failure_leaves_state r w t e :
  presentRef (local w) = Some t →
  typebot r ≠ Some t →
  mjoin (head (faults (remote w))) = Some e →
  let w' := exec (saveTypebot r) w in
  toasts w' = mkToast "error" (Some (error_name e)) (message e) :: toasts w
  ∧ local w' = set_isSavingLoading false (local w)
  ∧ (isSavingLoading (local w) = false → local w' = local w)
  ∧ (∀ (services : Services) rem,
       reachable (mounted rem) w → local w' = local w)
  ∧ drafts (remote w') = drafts (remote w)
  ∧ requests (remote w')
    = (UpdateTypebot (Typebot.id t) t, Some e) :: requests (remote w)
  ∧ ∃ e', requests (remote (exec (saveTypebot r) w'))
          = (UpdateTypebot (Typebot.id t) t, e') :: requests (remote w').
Proof.
  intros Href Hne Hfault w'.
  assert (Hw' : w' = flushed r t w).
  { unfold w', exec. by rewrite (saveTypebot_dirty _ _ t). }
  assert (Hlocal : local w' = set_isSavingLoading false (local w)).
  { rewrite Hw'. unfold flushed. by rewrite Hfault. }
  split_and!.
  - rewrite Hw'. unfold flushed. by rewrite Hfault.
  - done.
  - intros Hflag. rewrite Hlocal. destruct (local w); cbn in *. by subst.
  - intros services rem [Hflag _]%reachable_idle.
    rewrite Hlocal. destruct (local w); cbn in *. by subst.
  - rewrite Hw'. unfold flushed. by rewrite Hfault.
  - rewrite Hw', flushed_requests. by rewrite Hfault.
  - eexists. unfold exec.
    rewrite (saveTypebot_dirty _ _ t); [|by rewrite Hlocal|done].
    cbn. by rewrite flushed_requests.
Qed.

Lemma saveTypebot_failure_leaves_state_witness :
  let w := Demo.edited [Some Demo.boom] in
  let w' := exec (saveTypebot (render (local w))) w in
  toasts w' = [mkToast "error" (Some "Error") "Internal Server Error"]
  ∧ local w' = local w
  ∧ requests (remote w') = [(UpdateTypebot "tb1" Demo.renamed, Some Demo.boom)].
Proof.
  destruct (saveTypebot_failure_leaves_state
              (render (local (Demo.edited [Some Demo.boom])))
              (Demo.edited [Some Demo.boom]) Demo.renamed Demo.boom)
    as (Htoast & _ & Hlocal & _ & _ & Hreq & _);
    [reflexivity | by vm_compute | reflexivity |].
  split_and!; [exact Htoast | apply Hlocal; reflexivity | exact Hreq].
Defined.

(** C9. Called when there is no working copy, [updateLocalTypebot] returns
    normally and changes nothing, and neither does the render that
    follows. *)
Theorem updateLocalTypebot_without_document :
  (∀ r updates w,
     localTypebot r = None → updateLocalTypebot r updates w = (tt, w))
  ∧ (∀ (services : Services) updates w,
       History.present (history (local w)) = None →
       step (CallUpdateTypebot updates) w = w).
Proof.
  split.
  - intros r updates w Hnone. unfold updateLocalTypebot. by rewrite Hnone.
  - intros services updates w Hnone. unfold step, handle, updateLocalTypebot.
    cbn. rewrite Hnone. unfold commit. unfold_monad. cbn.
    by rewrite !bool_decide_eq_true_2.
Qed.

Lemma updateLocalTypebot_without_document_witness :
  step (CallUpdateTypebot Demo.rename) (mounted (Demo.store []))
  = mounted (Demo.store []).
Proof. apply (proj2 updateLocalTypebot_without_document). reflexivity. Defined.

(** ** The unsaved-changes guard *)

(** C7. The effect that runs when the working copy changed compares it
    with the loaded or persisted document through [checkIfTypebotsAreEqual]
    and leaves the unload listener installed exactly when the comparison says
    they differ; so does the render that follows an [updateTypebot] call that
    changed the working copy; and a flush whose write the store accepted
    leaves the listener removed.  (With the deep equality of the
    specification as comparison, the listener is installed exactly when the
    two documents are different values.) *)
Theorem unsaved_changes_guard (services : Services) :
  (∀ r w l t,
     localTypebot r = Some l → typebot r = Some t →
     beforeunload (local (exec (unsavedChangesEffect r) w))
     = negb (checkIfTypebotsAreEqual l t))
  ∧ (∀ w updates l t,
       History.present (history (local w)) = Some l →
       typebot (render (local w)) = Some t →
       spread l updates ≠ l →
       beforeunload (local (step (CallUpdateTypebot updates) w))
       = negb (checkIfTypebotsAreEqual (spread l updates) t))
  ∧ (∀ r w q,
       requests (remote (exec (saveTypebot r) w))
       = (q, None) :: requests (remote w) →
       beforeunload (local (exec (saveTypebot r) w)) = false).
Proof.
  split_and!.
  - intros r w l t Hl Ht. unfold unsavedChangesEffect. rewrite Hl, Ht. cbn.
    unfold_monad. cbn. by destruct (checkIfTypebotsAreEqual l t).
  - intros w updates l t Hl Ht Hchanged.
    unfold step, handle, updateLocalTypebot, commit. cbn.
    rewrite Hl. unfold setLocalTypebot. unfold_monad. cbn.
    rewrite bool_decide_eq_true_2 by done. cbn.
    rewrite bool_decide_eq_false_2 by congruence.
    cbn in Ht. rewrite Ht. unfold_monad. cbn.
    by destruct (checkIfTypebotsAreEqual (spread l updates) t).
  - intros r w q Hreq. unfold exec in *.
    destruct (saveTypebot_cases r w) as [Hs|(t & Href & Hne & Hs)];
      rewrite Hs in *; cbn in *.
    + apply (f_equal length) in Hreq. cbn in Hreq. lia.
    + rewrite flushed_requests in Hreq. injection Hreq as _ Hok.
      unfold flushed. by rewrite Hok.
Qed.

Lemma unsaved_changes_guard_witness :
  beforeunload (local (Demo.loaded [])) = false
  ∧ beforeunload
      (local (@step specServices (CallUpdateTypebot Demo.rename)
                (Demo.loaded [])))
    = negb (bool_decide (Demo.renamed = Demo.doc))
  ∧ beforeunload
      (local (exec (saveTypebot (render (local (Demo.edited []))))
                (Demo.edited [])))
    = false.
Proof.
  destruct (unsaved_changes_guard specServices) as (_ & Hstep & Hflush).
  split_and!.
  - reflexivity.
  - apply (Hstep (Demo.loaded []) Demo.rename Demo.doc Demo.doc);
      [reflexivity | reflexivity | by vm_compute].
  - apply (Hflush _ _ (UpdateTypebot "tb1" Demo.renamed)). reflexivity.
Defined.

(** ** Webhooks *)



Example updateWebhook_demo :
  let w := Demo.loaded [] in
  let w' :=
    exec (updateWebhook (render (local w)) "wh2"
            (Webhook.mkPartial None (Some "https://example.org") None None)) w in
  webhooks (render (local w'))
  = Some [Demo.hook1;
          Webhook.mk "wh2" (Some "https://example.org") "GET" None].
Proof. reflexivity. Qed.

(** ** Restoring the published version *)

Lemma setLocalTypebot_run v w :
  setLocalTypebot v w
  = (tt, with_local (λ l,
           set_presentRef v (set_history (History.set v (history l)) l)) w).
Proof. reflexivity. Qed.

(** C5, as the code breaks it.  The session of a published document has
    changed the theme and flushed; the store accepted, and the entry the flush
    handed to [mutate] has no snapshot.  The snapshot is in the store and the
    working copy differs from it in a publication-relevant field, yet
    [restorePublishedTypebot], called before the entry is revalidated, returns
    at its guard: nothing is restored and nothing is sent. *)
Lemma restorePublishedTypebot_after_flush_does_nothing :
  let w := Demo.liveFlushed [] in
  snapshots (remote w) !! "snap-0" = Some Demo.liveSnapshot
  ∧ History.present (history (local w)) = Some Demo.rethemed
  ∧ bool_decide
      (publicationOfTypebot Demo.rethemed
       = publicationOfPublic Demo.liveSnapshot)
    = false
  ∧ publishedTypebot (render (local w)) = None
  ∧ exec (@restorePublishedTypebot specServices (render (local w))) w = w
  ∧ @step specServices CallRestorePublishedTypebot w = w.
Proof. by vm_compute. Qed.

(** X17. When the render that calls [restorePublishedTypebot] sees a
    snapshot and a working copy, the document that
    [parsePublicTypebotToTypebot] makes of the two becomes the working copy
    and the reference, and it is flushed: unless the baseline of the closure
    already equals it, it is sent to the draft store under its id, and when
    the store accepts it, it is the stored draft and the new baseline. *)
Theorem restorePublishedTypebot_restores (services : Services) r w p l :
  publishedTypebot r = Some p →
  localTypebot r = Some l →
  let restored := parsePublicTypebotToTypebot p l in
  let w' := exec (restorePublishedTypebot r) w in
  History.present (history (local w')) = Some restored
  ∧ presentRef (local w') = Some restored
  ∧ (typebot r = Some restored → requests (remote w') = requests (remote w))
  ∧ (typebot r ≠ Some restored →
     requests (remote w')
     = (UpdateTypebot (Typebot.id restored) restored,
        mjoin (head (faults (remote w)))) :: requests (remote w)
     ∧ (mjoin (head (faults (remote w))) = None →
        drafts (remote w') !! Typebot.id restored = Some restored
        ∧ typebot (render (local w')) = Some restored)).
Proof.
  intros Hp Hl restored w'. subst w'.
  unfold restorePublishedTypebot. rewrite Hp, Hl. fold restored.
  rewrite exec_bind, setLocalTypebot_run. cbn [fst snd].
  set (ws := with_local _ w).
  assert (Href : presentRef (local ws) = Some restored) by done.
  destruct (decide (typebot r = Some restored)) as [Heq|Hne].
  - unfold exec. rewrite saveTypebot_clean by congruence.
    split_and!; done.
  - unfold exec. rewrite (saveTypebot_dirty _ _ restored) by done.
    cbn [snd]. rewrite flushed_requests.
    split_and!; try done.
    + unfold flushed. by destruct (mjoin (head (faults (remote ws)))).
    + unfold flushed. by destruct (mjoin (head (faults (remote ws)))).
    + intros _. split; [done|].
      intros Hok. unfold flushed. change (remote ws) with (remote w).
      rewrite Hok. cbn. split; [|done].
      apply lookup_insert_eq.
Qed.

Lemma restorePublishedTypebot_restores_witness :
  let w := Demo.liveRevalidated [] in
  let w' := exec (@restorePublishedTypebot specServices (render (local w))) w in
  History.present (history (local w)) = Some Demo.rethemed
  ∧ typebot (render (local w)) = Some Demo.rethemed
  ∧ bool_decide
      (publicationOfTypebot Demo.rethemed
       = publicationOfPublic Demo.liveSnapshot)
    = false
  ∧ History.present (history (local w')) = Some Demo.live
  ∧ publicationOfTypebot Demo.live = publicationOfPublic Demo.liveSnapshot
  ∧ requests (remote w')
    = [(UpdateTypebot "tb1" Demo.live, None);
       (UpdateTypebot "tb1" Demo.rethemed, None)]
  ∧ drafts (remote w') !! "tb1" = Some Demo.live.
Proof.
  destruct (restorePublishedTypebot_restores specServices
              (render (local (Demo.liveRevalidated [])))
              (Demo.liveRevalidated []) Demo.liveSnapshot Demo.rethemed)
    as (Hpresent & _ & _ & Hdirty); [reflexivity | reflexivity |].
  destruct Hdirty as [Hreq Hok]; [by vm_compute|].
  destruct Hok as [Hdraft _]; [reflexivity|].
  cbv zeta. split_and!;
    [reflexivity | reflexivity | reflexivity | exact Hpresent | reflexivity
    | exact Hreq | exact Hdraft].
Defined.

(** ** Publishing *)

(** What a flush never touches. *)
Lemma saveTypebot_frame r w :
  let w' := exec (saveTypebot r) w in
  history (local w') = history (local w)
  ∧ presentRef (local w') = presentRef (local w)
  ∧ isPublishing (local w') = isPublishing (local w)
  ∧ snapshots (remote w') = snapshots (remote w)
  ∧ uuids (remote w') = uuids (remote w)
  ∧ generated (remote w') = generated (remote w).
Proof.
  unfold exec.
  destruct (saveTypebot_cases r w) as [Hs|(t & _ & _ & Hs)]; rewrite Hs;
    [done|].
  unfold flushed. cbn. by destruct (mjoin (head (faults (remote w)))).
Qed.

(** The requests of a flush: none, or one write of the draft. *)
Lemma saveTypebot_requests r w :
  ∃ sent, requests (remote (exec (saveTypebot r) w))
          = (sent ++ requests (remote w))%list
          ∧ Forall (λ qe, isDraftWrite qe.1 = true) sent.
Proof.
  unfold exec.
  destruct (saveTypebot_cases r w) as [Hs|(t & _ & _ & Hs)]; rewrite Hs.
  - by exists [].
  - eexists [_]. cbn. rewrite flushed_requests. split; [done|].
    by repeat constructor.
Qed.

(** Symbolic execution across a flush: the world it ends in is named, and
    what is known about it is what the flush never touches. *)
Ltac flush_step r :=
  match goal with
  | |- context [saveTypebot r ?ws] =>
      let Hframe := fresh "Hframe" in
      let Hsent := fresh "Hsent" in
      pose proof (saveTypebot_frame r ws) as Hframe;
      pose proof (saveTypebot_requests r ws) as Hsent;
      unfold exec in Hframe, Hsent;
      let wf := fresh "wf" in
      destruct (saveTypebot r ws) as [[] wf];
      cbn [fst snd] in Hframe, Hsent |- *;
      destruct Hframe as (Hhist & Href & Hpub & Hsnap & Huuids & Hgen);
      cbn in Hhist, Href, Hpub, Hsnap, Huuids, Hgen, Hsent
  end.

Section Publishing.
Context {services : Services}.

Lemma publishTypebot_new_run r w l :
  localTypebot r = Some l →
  publishedTypebot r = None →
  let fresh := nextUuid w in
  let w' := exec (publishTypebot r) w in
  History.present (history (local w')) = Some (identified l fresh)
  ∧ presentRef (local w') = Some (identified l fresh)
  ∧ ∃ e, head (requests (remote w'))
         = Some (CreatePublishedTypebot (firstSnapshot l fresh), e)
         ∧ (if e is Some _ then
              snapshots (remote w') = snapshots (remote w)
            else
              snapshots (remote w')
              = <[fresh := firstSnapshot l fresh]> (snapshots (remote w))
              ∧ publishedTypebot (render (local w'))
                = Some (firstSnapshot l fresh)).
Proof.
  intros Hl Hp fresh w'. subst w' fresh.
  unfold publishTypebot, nextUuid, exec. rewrite Hl, Hp.
  unfold updateLocalTypebot. rewrite Hl.
  unfold generate, setLocalTypebot, setIsPublishing. unfold_monad.
  cbn -[saveTypebot].
  fold (identified l (uuids (remote w) (generated (remote w)))).
  fold (firstSnapshot l (uuids (remote w) (generated (remote w)))).
  set (fresh := uuids (remote w) (generated (remote w))).
  flush_step r.
  unfold createPublishedTypebot, receive. cbn.
  destruct (mjoin (head (faults (remote wf)))) as [e|]; cbn;
    rewrite Hhist, Href, Hsnap; (split_and!; [done..|]); eexists;
    by split.
Qed.

Lemma publishTypebot_update_run r w l p :
  localTypebot r = Some l →
  publishedTypebot r = Some p →
  let w' := exec (publishTypebot r) w in
  History.present (history (local w'))
  = (if Typebot.publishedTypebotId l is None
     then Some (spread l (mkPayload None None None None
                            (Some (PublicTypebot.id p)) None))
     else History.present (history (local w)))
  ∧ ∃ sent e,
      requests (remote w')
      = ((UpdatePublishedTypebot (PublicTypebot.id p) (nextSnapshot l p), e)
         :: sent ++ requests (remote w))%list
      ∧ Forall (λ qe, isDraftWrite qe.1 = true) sent
      ∧ (if e is Some _ then
           snapshots (remote w') = snapshots (remote w)
         else
           snapshots (remote w')
           = <[PublicTypebot.id p := nextSnapshot l p]> (snapshots (remote w))
           ∧ publishedTypebot (render (local w')) = Some (nextSnapshot l p)).
Proof.
  intros Hl Hp w'. subst w'.
  unfold publishTypebot, savePublishedTypebot, exec. rewrite Hl, Hp.
  unfold updateLocalTypebot. rewrite Hl.
  unfold generate, setLocalTypebot, setIsPublishing. unfold_monad.
  fold (nextSnapshot l p).
  destruct (Typebot.publishedTypebotId l) as [i|]; cbn -[saveTypebot].
  - unfold updatePublishedTypebot, receive. cbn.
    destruct (mjoin (head (faults (remote w)))) as [e|]; cbn;
      (split; [done|]); eexists [], _; by split_and!.
  - flush_step r. destruct Hsent as (sent & Hreq & Hsent).
    unfold updatePublishedTypebot, receive. cbn.
    destruct (mjoin (head (faults (remote wf)))) as [e|]; cbn;
      rewrite Hhist, Hsnap, Hreq; (split; [done|]); eexists sent, _;
      by split_and!.
Qed.

End Publishing.

(** C2, as stated, fails: the document had no public identifier when
    [publishTypebot] was called, and the snapshot that is created carries the
    derived one, so their publication-relevant fields differ. *)
Lemma publishTypebot_new_differs_from_call_time :
  let w := Demo.loaded [] in
  let w' := exec (@publishTypebot specServices (render (local w))) w in
  History.present (history (local w)) = Some Demo.doc
  ∧ Typebot.publicId Demo.doc = None
  ∧ publishedTypebot (render (local w)) = None
  ∧ snapshots (remote w') !! "snap-a"
    = Some (@firstSnapshot specServices Demo.doc "snap-a")
  ∧ PublicTypebot.publicId (@firstSnapshot specServices Demo.doc "snap-a")
    = Some "My bot-tb1"
  ∧ bool_decide
      (publicationOfPublic (@firstSnapshot specServices Demo.doc "snap-a")
       = publicationOfTypebot Demo.doc)
    = false.
Proof. by vm_compute. Qed.

(** C2, amended.  With the helpers of the specification: when the session
    has a working copy and no snapshot, [publishTypebot] leaves a working copy
    whose [publicId] is the slug derived from its name and id and whose
    [publishedTypebotId] is the freshly generated identity, and asks the store
    to create a snapshot with that identity.  The publication-relevant fields
    of that snapshot are those of the resulting working copy, that is, those
    of the document at call time with the derived [publicId].  When the store
    accepts the creation, the snapshot is stored under the fresh identity and
    is the snapshot of the session. *)
Theorem publishTypebot_new r w l :
  localTypebot r = Some l →
  publishedTypebot r = None →
  let fresh := nextUuid w in
  let slug := @parseDefaultPublicId specServices (Typebot.name l)
                (Typebot.id l) in
  let w' := exec (@publishTypebot specServices r) w in
  ∃ l' s e,
    History.present (history (local w')) = Some l'
    ∧ presentRef (local w') = Some l'
    ∧ Typebot.publicId l' = Some slug
    ∧ Typebot.publishedTypebotId l' = Some fresh
    ∧ head (requests (remote w')) = Some (CreatePublishedTypebot s, e)
    ∧ PublicTypebot.id s = fresh
    ∧ publicationOfPublic s = publicationOfTypebot l'
    ∧ publicationOfPublic s = publicationOfTypebot (with_publicId slug l)
    ∧ (e = None →
       snapshots (remote w') !! fresh = Some s
       ∧ publishedTypebot (render (local w')) = Some s).
Proof.
  intros Hl Hp fresh slug w'.
  destruct (publishTypebot_new_run r w l Hl Hp) as (Hh & Href & e & Hreq & He).
  exists (identified l fresh), (firstSnapshot l fresh), e.
  split_and!; try done.
  intros ->. destruct He as [Hsnap Hcache]. split; [|done].
  unfold w'. rewrite Hsnap. apply lookup_insert_eq.
Qed.

Lemma publishTypebot_new_witness :
  let w := Demo.loaded [] in
  ∃ l' s e,
    History.present
      (history (local (exec (@publishTypebot specServices (render (local w)))
                         w)))
    = Some l'
    ∧ presentRef
        (local (exec (@publishTypebot specServices (render (local w))) w))
      = Some l'
    ∧ Typebot.publicId l' = Some "My bot-tb1"
    ∧ Typebot.publishedTypebotId l' = Some "snap-a"
    ∧ head (requests
              (remote (exec (@publishTypebot specServices (render (local w)))
                         w)))
      = Some (CreatePublishedTypebot s, e)
    ∧ PublicTypebot.id s = "snap-a"
    ∧ publicationOfPublic s = publicationOfTypebot l'
    ∧ publicationOfPublic s
      = publicationOfTypebot (with_publicId "My bot-tb1" Demo.doc)
    ∧ (e = None →
       snapshots
         (remote (exec (@publishTypebot specServices (render (local w))) w))
       !! "snap-a" = Some s
       ∧ publishedTypebot
           (render
              (local (exec (@publishTypebot specServices (render (local w)))
                        w)))
         = Some s).
Proof.
  apply (publishTypebot_new (render (local (Demo.loaded []))) (Demo.loaded [])
           Demo.doc); reflexivity.
Defined.

(** C3, as the code breaks it.  The store holds the snapshot of a document
    that records its identity and has a public id of its own.  The session
    loads both, changes the theme and flushes; the store accepts, and the
    entry the flush hands to [mutate] has no snapshot.  Published from there,
    before the entry is revalidated, the document goes through the branch of
    a first publication: a snapshot is created under a fresh identity beside
    the one that exists, and the public id and the recorded identity of the
    working copy are overwritten. *)
Lemma publishTypebot_after_flush_creates_second_snapshot :
  let w := Demo.liveFlushed [] in
  let w' := exec (@publishTypebot specServices (render (local w))) w in
  snapshots (remote w) !! "snap-0" = Some Demo.liveSnapshot
  ∧ History.present (history (local w)) = Some Demo.rethemed
  ∧ Typebot.publicId Demo.rethemed = Some "my-bot"
  ∧ Typebot.publishedTypebotId Demo.rethemed = Some "snap-0"
  ∧ publishedTypebot (render (local w)) = None
  ∧ head (requests (remote w'))
    = Some (CreatePublishedTypebot
              (@firstSnapshot specServices Demo.rethemed "snap-a"), None)
  ∧ snapshots (remote w') !! "snap-0" = Some Demo.liveSnapshot
  ∧ snapshots (remote w') !! "snap-a"
    = Some (@firstSnapshot specServices Demo.rethemed "snap-a")
  ∧ (History.present (history (local w')) ≫= Typebot.publicId)
    = Some "My bot-tb1"
  ∧ (History.present (history (local w')) ≫= Typebot.publishedTypebotId)
    = Some "snap-a".
Proof. by vm_compute. Qed.

(** X16. When the render that calls [publishTypebot] sees a snapshot, the
    last request is one update of that snapshot, addressed to its identity
    and carrying the projection of the working copy under that identity;
    whatever else is sent is a write of the draft, so no snapshot is created
    and, the snapshot being in the store, the store holds the same snapshot
    identities as before.  When the store accepts the update, it holds that
    projection and so does the cache.  The [publicId] of the working copy is
    what it was, and a working copy that recorded no snapshot identity
    records the one of the snapshot. *)
Theorem publishTypebot_update (services : Services) w l p :
  History.present (history (local w)) = Some l →
  publishedTypebot (render (local w)) = Some p →
  let w' := exec (publishTypebot (render (local w))) w in
  (∃ e sent,
     requests (remote w')
     = ((UpdatePublishedTypebot (PublicTypebot.id p) (nextSnapshot l p), e)
        :: sent ++ requests (remote w))%list
     ∧ Forall (λ qe, isDraftWrite qe.1 = true) sent
     ∧ (e = None →
        snapshots (remote w') !! PublicTypebot.id p
        = Some (nextSnapshot l p)
        ∧ publishedTypebot (render (local w')) = Some (nextSnapshot l p)))
  ∧ (∀ q e, (q, e) ∈ requests (remote w') → isSnapshotCreate q = true →
            (q, e) ∈ requests (remote w))
  ∧ (is_Some (snapshots (remote w) !! PublicTypebot.id p) →
     dom (snapshots (remote w')) = dom (snapshots (remote w)))
  ∧ (Typebot.publicId <$> History.present (history (local w')))
    = Some (Typebot.publicId l)
  ∧ (Typebot.publishedTypebotId l = None →
     (History.present (history (local w')) ≫= Typebot.publishedTypebotId)
     = Some (PublicTypebot.id p)).
Proof.
  intros Hl Hp w'.
  destruct (publishTypebot_update_run (render (local w)) w l p Hl Hp)
    as (Hh & sent & e & Hreq & Hsent & He).
  fold w' in Hh, Hreq, He. split_and!.
  - exists e, sent. split_and!; [done..|].
    intros ->. destruct He as [Hsnap Hcache]. split; [|done].
    rewrite Hsnap. apply lookup_insert_eq.
  - intros q e' Hin Hcreate. rewrite Hreq in Hin.
    apply elem_of_cons in Hin as [[= -> _]|Hin]; [done|].
    apply elem_of_app in Hin as [Hin|Hin]; [|done].
    rewrite Forall_forall in Hsent. apply Hsent in Hin.
    by destruct q.
  - intros Hstored. destruct e as [e|]; [by rewrite He|].
    destruct He as [-> _]. by apply dom_insert_lookup_L.
  - rewrite Hh. destruct (Typebot.publishedTypebotId l); [by rewrite Hl|done].
  - intros Hnone. rewrite Hh, Hnone. done.
Qed.

Lemma publishTypebot_update_witness :
  let w := Demo.republishing [] in
  let w' := exec (@publishTypebot specServices (render (local w))) w in
  requests (remote w')
  = [(UpdatePublishedTypebot "snap-0"
        (@nextSnapshot specServices Demo.renamed Demo.snapshot), None);
     (UpdateTypebot "tb1"
        (spread Demo.renamed
           (mkPayload None None None None (Some "snap-0") None)), None)]
  ∧ PublicTypebot.name (@nextSnapshot specServices Demo.renamed Demo.snapshot)
    = "X"
  ∧ snapshots (remote w') !! "snap-0"
    = Some (@nextSnapshot specServices Demo.renamed Demo.snapshot)
  ∧ dom (snapshots (remote w')) = dom (snapshots (remote w))
  ∧ (Typebot.publicId <$> History.present (history (local w'))) = Some None
  ∧ (History.present (history (local w')) ≫= Typebot.publishedTypebotId)
    = Some "snap-0".
Proof.
  destruct (publishTypebot_update specServices (Demo.republishing [])
              Demo.renamed Demo.snapshot)
    as ((e & sent & Hreq & _ & Hok) & _ & Hdom & Hpublic & Hrecorded);
    [reflexivity | reflexivity |].
  cbv zeta.
  split_and!;
    [reflexivity | reflexivity | | apply Hdom; eexists; reflexivity
    | exact Hpublic | apply Hrecorded; reflexivity].
  reflexivity.
Defined.

(** ** The snapshot identity a document records *)

Lemma run_reachable {services : Services} es w0 : reachable w0 (run es w0).
Proof.
  induction es as [|e es IH] using rev_ind; [constructor|].
  unfold run. rewrite foldl_app. cbn. by constructor.
Qed.

(** C6, as stated, fails: a session loads a document that was never
    published and publishes it; the store accepts the draft, which records
    the fresh snapshot identity, and rejects the creation of the snapshot.
    The working copy and the stored draft then refer to a snapshot that does
    not exist. *)
Lemma publishTypebot_dangling_reference :
  let w0 := mounted (Demo.store [None; Some Demo.boom]) in
  let w := @run specServices [Fetched Demo.bundle; CallPublishTypebot] w0 in
  @reachable specServices w0 w
  ∧ danglingReference (@run specServices [Fetched Demo.bundle] w0) = false
  ∧ (History.present (history (local w)) ≫= Typebot.publishedTypebotId)
    = Some "snap-a"
  ∧ (drafts (remote w) !! "tb1" ≫= Typebot.publishedTypebotId)
    = Some "snap-a"
  ∧ snapshots (remote w) !! "snap-a" = None
  ∧ danglingReference w = true.
Proof. split; [apply run_reachable | by vm_compute]. Qed.

(** C6, amended.  [publishTypebot] is called through the closure of the
    current render on a working copy that records no snapshot identity or
    the identity of the snapshot of the session.  When the store accepts its
    last request, the write of the snapshot, the working copy records a
    snapshot identity, and the store holds a snapshot with that identity
    under it.  (The identity is recorded, and the draft flushed, before the
    snapshot is written: nothing is promised when that write is rejected.) *)
Theorem publishTypebot_mirrors_identity (services : Services) w l :
  History.present (history (local w)) = Some l →
  (∀ p, publishedTypebot (render (local w)) = Some p →
        Typebot.publishedTypebotId l = None
        ∨ Typebot.publishedTypebotId l = Some (PublicTypebot.id p)) →
  let w' := exec (publishTypebot (render (local w))) w in
  ∀ q, head (requests (remote w')) = Some (q, None) →
       ∃ i s,
         (History.present (history (local w')) ≫= Typebot.publishedTypebotId)
         = Some i
         ∧ snapshots (remote w') !! i = Some s
         ∧ PublicTypebot.id s = i
         ∧ danglingReference w' = false.
Proof.
  intros Hl Hrecorded w' q Hhead.
  assert (Hgoal : ∀ i s,
            (History.present (history (local w'))
               ≫= Typebot.publishedTypebotId) = Some i →
            snapshots (remote w') !! i = Some s → PublicTypebot.id s = i →
            ∃ i s,
              (History.present (history (local w'))
                 ≫= Typebot.publishedTypebotId) = Some i
              ∧ snapshots (remote w') !! i = Some s
              ∧ PublicTypebot.id s = i
              ∧ danglingReference w' = false).
  { intros i s Hi Hs Hid. exists i, s. split_and!; try done.
    unfold danglingReference. rewrite Hi. by rewrite Hs. }
  destruct (publishedTypebot (render (local w))) as [p|] eqn:Hp.
  - destruct (publishTypebot_update_run (render (local w)) w l p Hl Hp)
      as (Hh & sent & e & Hreq & _ & He).
    fold w' in Hh, Hreq, He. rewrite Hreq in Hhead.
    injection Hhead as _ ->. destruct He as [Hsnap _].
    apply (Hgoal (PublicTypebot.id p) (nextSnapshot l p)); [|by
      rewrite Hsnap, lookup_insert_eq|done].
    rewrite Hh. destruct (Hrecorded p eq_refl) as [Hnone|Hsame].
    + by rewrite Hnone.
    + rewrite Hsame, Hl. cbn. done.
  - destruct (publishTypebot_new_run (render (local w)) w l Hl Hp)
      as (Hh & _ & e & Hreq & He).
    fold w' in Hh, Hreq, He. rewrite Hreq in Hhead.
    injection Hhead as _ ->. destruct He as [Hsnap _].
    apply (Hgoal (nextUuid w) (firstSnapshot l (nextUuid w)));
      [by rewrite Hh | by rewrite Hsnap, lookup_insert_eq | done].
Qed.

Lemma publishTypebot_mirrors_identity_witness :
  let w := Demo.loaded [] in
  let w' := exec (@publishTypebot specServices (render (local w))) w in
  head (requests (remote w'))
  = Some (CreatePublishedTypebot (@firstSnapshot specServices Demo.doc "snap-a"),
          None)
  ∧ ∃ i s,
      (History.present (history (local w')) ≫= Typebot.publishedTypebotId)
      = Some i
      ∧ snapshots (remote w') !! i = Some s
      ∧ PublicTypebot.id s = i
      ∧ danglingReference w' = false.
Proof.
  split; [reflexivity|].
  apply (publishTypebot_mirrors_identity specServices (Demo.loaded [])
           Demo.doc eq_refl) with
    (q := CreatePublishedTypebot (@firstSnapshot specServices Demo.doc "snap-a"));
    [|reflexivity].
  intros p Hp. by vm_compute in Hp.
Defined.

(** * Further properties of the component *)

(** ** What a function sends *)

Section Sends.
Context {A B : Type} (P : Request → Prop).

Lemma sends_quiet (m : M A) :
  (∀ w, requests (remote (exec m w)) = requests (remote w)) → sends P m.
Proof. intros Hquiet w. exists []. by rewrite Hquiet. Qed.

Lemma sends_ret (a : A) : sends P (mret a).
Proof. by apply sends_quiet. Qed.

Lemma sends_bind (m : M A) (k : A → M B) :
  sends P m → (∀ a, sends P (k a)) → sends P (m ≫= k).
Proof.
  intros Hm Hk w. rewrite exec_bind.
  destruct (Hm w) as (sent1 & Hreq1 & Hsent1).
  destruct (Hk (m w).1 (m w).2) as (sent2 & Hreq2 & Hsent2).
  exists (sent2 ++ sent1)%list. unfold exec in Hreq1.
  rewrite Hreq2, Hreq1, <-(assoc_L (++)). split; [done|].
  by apply Forall_app.
Qed.

Lemma sends_one (q : Request) (m : M A) :
  P q →
  (∀ w, ∃ e, requests (remote (exec m w)) = (q, e) :: requests (remote w)) →
  sends P m.
Proof.
  intros Hq Hone w. destruct (Hone w) as [e He].
  exists [(q, e)]. split; [done|]. by repeat constructor.
Qed.

End Sends.

Lemma sends_updateTypebot P i t :
  P (UpdateTypebot i t) → sends P (updateTypebot i t).
Proof.
  intros HP. apply (sends_one P (UpdateTypebot i t)); [done|].
  intros w. unfold updateTypebot, receive, exec. cbn.
  by destruct (mjoin (head (faults (remote w)))); eexists.
Qed.

Lemma sends_createPublishedTypebot P p :
  P (CreatePublishedTypebot p) → sends P (createPublishedTypebot p).
Proof.
  intros HP. apply (sends_one P (CreatePublishedTypebot p)); [done|].
  intros w. unfold createPublishedTypebot, receive, exec. cbn.
  by destruct (mjoin (head (faults (remote w)))); eexists.
Qed.

Lemma sends_updatePublishedTypebot P i p :
  P (UpdatePublishedTypebot i p) → sends P (updatePublishedTypebot i p).
Proof.
  intros HP. apply (sends_one P (UpdatePublishedTypebot i p)); [done|].
  intros w. unfold updatePublishedTypebot, receive, exec. cbn.
  by destruct (mjoin (head (faults (remote w)))); eexists.
Qed.

Lemma sends_saveWebhook P i u :
  P (SaveWebhook i u) → sends P (saveWebhook i u).
Proof.
  intros HP. apply (sends_one P (SaveWebhook i u)); [done|].
  intros w. unfold saveWebhook, receive, exec. cbn.
  destruct (mjoin (head (faults (remote w)))); [by eexists|].
  by destruct (hooks (remote w) !! i); eexists.
Qed.

(** Goals of the form [sends P m], by the structure of [m]. *)
Ltac sends_step :=
  first
    [ apply sends_ret
    | apply sends_bind; [|intros ?]
    | apply sends_updateTypebot
    | apply sends_createPublishedTypebot
    | apply sends_updatePublishedTypebot
    | apply sends_saveWebhook
    | by apply sends_quiet
    | match goal with
      | |- sends _ (match ?x with _ => _ end) => destruct x eqn:?
      end ].

Ltac sends_all := repeat sends_step.

Lemma sends_saveTypebot P r :
  (∀ t, P (UpdateTypebot (Typebot.id t) t)) → sends P (saveTypebot r).
Proof.
  intros HP. unfold saveTypebot, setIsSavingLoading, toastError, toast,
    mutate, removeBeforeunload.
  sends_all. apply HP.
Qed.

Lemma sends_savePublishedTypebot P r p :
  P (UpdatePublishedTypebot (PublicTypebot.id p) p) →
  sends P (savePublishedTypebot r p).
Proof.
  intros HP. unfold savePublishedTypebot, setIsPublishing, toastError, toast,
    mutate.
  sends_all. apply HP.
Qed.

Section SendsOfEvents.
Context {services : Services} (P : Request → Prop).

Lemma sends_commit r : sends P (commit r).
Proof.
  unfold commit, loadEffect, unsavedChangesEffect, setLocalTypebot, toast,
    routerReplace, removeBeforeunload, addBeforeunload.
  sends_all.
Qed.

(** The requests of an event: writes of a draft under its id, updates of a
    snapshot under its id, updates of a webhook, and, for a publication by a
    session that sees no snapshot, one creation. *)
Lemma sends_handle e r :
  (∀ t, P (UpdateTypebot (Typebot.id t) t)) →
  (∀ p, P (UpdatePublishedTypebot (PublicTypebot.id p) p)) →
  (∀ i u, P (SaveWebhook i u)) →
  (e = CallPublishTypebot → publishedTypebot r = None →
   ∀ p, P (CreatePublishedTypebot p)) →
  sends P (handle e r).
Proof.
  intros Hdraft Hupdate Hhook Hcreate.
  pose proof (sends_saveTypebot P) as Hflush.
  pose proof (sends_savePublishedTypebot P) as Hsnapshot.
  destruct e; cbn [handle]; try (by apply Hflush);
    unfold publishTypebot, updateOnBothTypebots, restorePublishedTypebot,
      updateLocalTypebot, updateWebhook, undo, redo, generate,
      setLocalTypebot, setIsPublishing, toastError, toast, mutate.
  - by apply sends_quiet.
  - sends_all.
  - by apply sends_quiet.
  - by apply sends_quiet.
  - destruct (localTypebot r) as [l|]; [|apply sends_ret].
    apply sends_bind; [by apply sends_quiet|intros fresh].
    destruct (publishedTypebot r) as [p|] eqn:Hp.
    + apply sends_bind; [|intros ?].
      { destruct (Typebot.publishedTypebotId l); [apply sends_ret|].
        apply sends_bind; [by apply sends_quiet|intros ?]. by apply Hflush. }
      apply sends_bind; [apply sends_ret|intros ?].
      apply Hsnapshot. exact (Hupdate (PublicTypebot.with_id _ _)).
    + apply sends_bind; [apply sends_ret|intros ?].
      apply sends_bind; [|intros ?].
      { apply sends_bind; [by apply sends_quiet|intros ?].
        apply sends_bind; [by apply Hflush|intros ?]. apply sends_ret. }
      sends_all. by apply Hcreate.
  - destruct (publishedTypebot r), (localTypebot r); try apply sends_ret.
    apply sends_bind; [by apply sends_quiet|intros ?]. by apply Hflush.
  - apply sends_bind; [|intros ?].
    { destruct (localTypebot r); [by apply sends_quiet|apply sends_ret]. }
    apply sends_bind; [by apply Hflush|intros ?].
    destruct (publishedTypebot r) as [p|]; [|apply sends_ret].
    apply Hsnapshot. exact (Hupdate (spreadPublic p _)).
  - sends_all. apply Hhook.
Qed.

Lemma sends_step e w :
  (∀ t, P (UpdateTypebot (Typebot.id t) t)) →
  (∀ p, P (UpdatePublishedTypebot (PublicTypebot.id p) p)) →
  (∀ i u, P (SaveWebhook i u)) →
  (e = CallPublishTypebot → publishedTypebot (render (local w)) = None →
   ∀ p, P (CreatePublishedTypebot p)) →
  ∃ sent,
    requests (remote (step e w)) = (sent ++ requests (remote w))%list
    ∧ Forall (λ qe, P qe.1) sent.
Proof.
  intros Hdraft Hupdate Hhook Hcreate. unfold step.
  apply (sends_bind P); [by apply sends_handle|intros ?; apply sends_commit].
Qed.

End SendsOfEvents.

(** The render that follows an event touches neither the cache entry nor
    the store. *)
Lemma commit_frame {services : Services} r w :
  data (local (exec (commit r) w)) = data (local w)
  ∧ remote (exec (commit r) w) = remote w.
Proof.
  unfold commit. unfold_ops. cbn.
  repeat (case_match; simplify_eq/=); done.
Qed.

(** X9. In every state a mounted session reaches, the log of the store holds
    only well-addressed requests when it held only such at mount: a write of
    a draft goes to the id of the document it carries, an update of a
    snapshot to the id of the snapshot it carries. *)
Theorem requests_wellAddressed (services : Services) rem w :
  reachable (mounted rem) w →
  Forall (λ qe, wellAddressed qe.1) (requests rem) →
  Forall (λ qe, wellAddressed qe.1) (requests (remote w)).
Proof.
  intros Hreach Hmount. induction Hreach as [|w e _ IH]; [done|].
  destruct (sends_step wellAddressed e w) as (sent & -> & Hsent);
    try done.
  by apply Forall_app.
Qed.

Lemma requests_wellAddressed_witness :
  Forall (λ qe, wellAddressed qe.1)
    (requests
       (remote
          (@run specServices
             [Fetched Demo.publishedBundle; CallUpdateTypebot Demo.rename;
              CallSave; CallUpdateOnBothTypebots Demo.rename;
              CallPublishTypebot]
             (mounted (Demo.publishedStore []))))).
Proof.
  apply (requests_wellAddressed specServices (Demo.publishedStore []));
    [apply run_reachable | constructor].
Defined.

(** X10. The only event that asks the store to create a snapshot is a
    publication by a session whose render sees no snapshot: every other event,
    and a publication by a session that sees its snapshot, sends no
    creation. *)
Theorem creation_only_by_first_publication (services : Services) e w :
  (e = CallPublishTypebot → is_Some (publishedTypebot (render (local w)))) →
  ∃ sent,
    requests (remote (step e w)) = (sent ++ requests (remote w))%list
    ∧ Forall (λ qe, isSnapshotCreate qe.1 = false) sent.
Proof.
  intros Hseen.
  apply (sends_step (λ q, isSnapshotCreate q = false)); try done.
  intros He Hnone. destruct (Hseen He) as [p Hp]. congruence.
Qed.

Lemma creation_only_by_first_publication_witness :
  ∃ sent,
    requests
      (remote (@step specServices CallPublishTypebot (Demo.republishing [])))
    = (sent ++ requests (remote (Demo.republishing [])))%list
    ∧ Forall (λ qe, isSnapshotCreate qe.1 = false) sent.
Proof.
  apply (creation_only_by_first_publication specServices).
  intros _. eexists. reflexivity.
Defined.

(** X7. The listeners of [visibilitychange] and [routeChangeStart] call the
    [saveTypebot] of the render at mount, which saw no document: whenever the
    reference holds a working copy they send it, whatever the baseline is
    now; and when the store accepts it, the cache entry becomes that document
    with an empty webhook list and nothing else. *)
Theorem host_signal_always_sends (services : Services) e w t :
  e = VisibilityChange ∨ e = RouteChangeStart →
  presentRef (local w) = Some t →
  requests (remote (step e w))
  = (UpdateTypebot (Typebot.id t) t, mjoin (head (faults (remote w))))
    :: requests (remote w)
  ∧ (mjoin (head (faults (remote w))) = None →
     data (local (step e w)) = Some (Bundle.mk (Some t) [] None None None)).
Proof.
  intros He Href. unfold step. rewrite exec_bind.
  assert (Hhandle : handle e (render (local w)) w
                    = (tt, flushed mountRender t w)).
  { destruct He as [-> | ->]; cbn [handle]; by apply saveTypebot_dirty. }
  rewrite Hhandle. cbn [fst snd].
  destruct (commit_frame (render (local w)) (flushed mountRender t w))
    as [-> ->].
  split; [apply flushed_requests|].
  intros Hok. unfold flushed. by rewrite Hok.
Qed.

Lemma host_signal_always_sends_witness :
  typebot (render (local (Demo.loaded []))) = presentRef (local (Demo.loaded []))
  ∧ requests (remote (@step specServices RouteChangeStart (Demo.loaded [])))
    = [(UpdateTypebot "tb1" Demo.doc, None)]
  ∧ webhooks (render (local (Demo.loaded []))) = Some [Demo.hook1; Demo.hook2]
  ∧ webhooks
      (render (local (@step specServices RouteChangeStart (Demo.loaded []))))
    = Some [].
Proof.
  destruct (host_signal_always_sends specServices RouteChangeStart
              (Demo.loaded []) Demo.doc) as [Hsent Hcache];
    [by right | reflexivity |].
  split_and!; [reflexivity | exact Hsent | reflexivity |].
  unfold render. cbn [webhooks]. by rewrite Hcache.
Defined.

(** X13. Before the document is loaded nothing but the arrival of the data
    has an effect: every call of the context and every host signal leaves
    the session and the store exactly as they were, without a request, a
    toast or a generated identity. *)
Theorem nothing_before_load (services : Services) rem e :
  (∀ b, e ≠ Fetched b) → step e (mounted rem) = mounted rem.
Proof.
  intros Hcall. destruct e; try reflexivity. by destruct (Hcall b).
Qed.

Lemma nothing_before_load_witness :
  @step specServices CallPublishTypebot (mounted (Demo.store []))
  = mounted (Demo.store []).
Proof. by apply (nothing_before_load specServices). Defined.

(** ** The snapshot write *)

(** X1. [savePublishedTypebot] sends exactly one update, addressed to the
    identity of the snapshot it is given, and never touches the drafts.
    Rejected, it shows the error and changes nothing else but the publishing
    flag, which is down again.  Accepted, the store holds the snapshot under
    its identity and the cache entry becomes the document of the reference,
    the webhooks of the closure and the snapshot, without owner and
    read-only flag. *)
Theorem savePublishedTypebot_outcome r w p :
  let w' := exec (savePublishedTypebot r p) w in
  let answer := mjoin (head (faults (remote w))) in
  requests (remote w')
  = (UpdatePublishedTypebot (PublicTypebot.id p) p, answer)
    :: requests (remote w)
  ∧ drafts (remote w') = drafts (remote w)
  ∧ match answer with
    | Some e =>
        local w' = set_isPublishing false (local w)
        ∧ toasts w'
          = mkToast "error" (Some (error_name e)) (message e) :: toasts w
        ∧ snapshots (remote w') = snapshots (remote w)
    | None =>
        local w'
        = set_data
            (Some (Bundle.mk (presentRef (local w)) (default [] (webhooks r))
                     (Some p) None None))
            (set_isPublishing false (local w))
        ∧ toasts w' = toasts w
        ∧ snapshots (remote w')
          = <[PublicTypebot.id p := p]> (snapshots (remote w))
    end.
Proof.
  intros w' answer. subst w' answer. unfold_ops. cbn.
  by destruct (mjoin (head (faults (remote w)))).
Qed.

(** ** The accepted flush *)

(** X6. After a flush that the store accepted, the store holds the working
    copy under its id, and the cache entry is that document with the
    webhooks of the closure and nothing else: the next render sees no
    snapshot and reports the document as not published, whatever it saw
    before.  History, reference and toasts are as they were. *)
Theorem saveTypebot_accepted r w t :
  presentRef (local w) = Some t →
  typebot r ≠ Some t →
  mjoin (head (faults (remote w))) = None →
  let w' := exec (saveTypebot r) w in
  drafts (remote w') !! Typebot.id t = Some t
  ∧ data (local w')
    = Some (Bundle.mk (Some t) (default [] (webhooks r)) None None None)
  ∧ history (local w') = history (local w)
  ∧ presentRef (local w') = Some t
  ∧ toasts w' = toasts w
  ∧ publishedTypebot (render (local w')) = None
  ∧ ∀ services : Services, isPublished (render (local w')) = false.
Proof.
  intros Href Hne Hok w'. subst w'. unfold exec.
  rewrite (saveTypebot_dirty _ _ t) by done. cbn [snd].
  unfold flushed. rewrite Hok. cbn.
  split_and!; try done. apply lookup_insert_eq.
Qed.

Lemma saveTypebot_accepted_witness :
  let w := Demo.republishing [] in
  let w' := exec (saveTypebot (render (local w))) w in
  publishedTypebot (render (local w)) = Some Demo.snapshot
  ∧ drafts (remote w') !! "tb1" = Some Demo.renamed
  ∧ publishedTypebot (render (local w')) = None
  ∧ @isPublished specServices (render (local w')) = false.
Proof.
  destruct (saveTypebot_accepted (render (local (Demo.republishing [])))
              (Demo.republishing []) Demo.renamed)
    as (Hdraft & _ & _ & _ & _ & Hsnapshot & Hpublished);
    [reflexivity | by vm_compute | reflexivity |].
  cbv zeta. split_and!;
    [reflexivity | exact Hdraft | exact Hsnapshot | apply Hpublished].
Defined.

(** ** The flags *)

Lemma savePublishedTypebot_idle r p w :
  idle w → idle (exec (savePublishedTypebot r p) w).
Proof.
  intros [Hs Hp]. unfold idle. unfold_ops. cbn.
  by destruct (mjoin (head (faults (remote w)))).
Qed.

(** X8. Every function that raises [isSavingLoading] or [isPublishing]
    lowers it again on each of its paths, the rejected ones included: called
    while no flag is up, the flush, the snapshot write, the publication, the
    update of both records and the restoration return with no flag up. *)
Theorem flags_lowered (services : Services) r w :
  idle w →
  idle (exec (saveTypebot r) w)
  ∧ (∀ p, idle (exec (savePublishedTypebot r p) w))
  ∧ idle (exec (publishTypebot r) w)
  ∧ (∀ updates, idle (exec (updateOnBothTypebots r updates) w))
  ∧ idle (exec (restorePublishedTypebot r) w).
Proof.
  intros Hidle. split_and!.
  - by apply saveTypebot_idle.
  - intros p. by apply savePublishedTypebot_idle.
  - by apply (handle_idle CallPublishTypebot).
  - intros updates. by apply (handle_idle (CallUpdateOnBothTypebots updates)).
  - by apply (handle_idle CallRestorePublishedTypebot).
Qed.

Lemma flags_lowered_witness :
  let w := Demo.loaded [None; Some Demo.boom] in
  idle w ∧ idle (exec (@publishTypebot specServices (render (local w))) w).
Proof.
  cbv zeta. split; [by split|].
  apply (flags_lowered specServices
           (render (local (Demo.loaded [None; Some Demo.boom])))
           (Demo.loaded [None; Some Demo.boom])).
  by split.
Defined.

(** ** Loading and revalidation *)

(** X4. The first arrival of data seeds the session and sends nothing.  With
    a document, it becomes the working copy and the reference, and the guard
    compares it with itself; without one, an info toast is shown, the router
    is sent to [/typebots] and there is no working copy. *)
Theorem first_fetch (services : Services) rem b :
  let w' := step (Fetched b) (mounted rem) in
  remote w' = rem
  ∧ data (local w') = Some b
  ∧ match Bundle.typebot b with
    | Some t =>
        History.present (history (local w')) = Some t
        ∧ presentRef (local w') = Some t
        ∧ beforeunload (local w') = negb (checkIfTypebotsAreEqual t t)
        ∧ toasts w' = []
        ∧ location w' = None
    | None =>
        History.present (history (local w')) = None
        ∧ presentRef (local w') = None
        ∧ beforeunload (local w') = false
        ∧ toasts w' = [mkToast "info" None "Couldn't find typebot"]
        ∧ location w' = Some "/typebots"
    end.
Proof.
  intros w'. subst w'. unfold step, commit. cbn [handle]. unfold_ops. cbn.
  rewrite (bool_decide_eq_false_2 (false = true)) by done.
  destruct (Bundle.typebot b) as [t|] eqn:Ht; cbn.
  - rewrite bool_decide_eq_false_2 by done. rewrite Ht. cbn.
    by destruct (checkIfTypebotsAreEqual t t).
  - by rewrite bool_decide_eq_true_2.
Qed.

(** X5. Once data has arrived, data that arrives again replaces the cache
    entry and nothing else: the working copy and its history are kept, no
    effect runs (the guard is not re-evaluated against the new baseline), and
    nothing is sent. *)
Theorem revalidation_keeps_working_copy (services : Services) w b :
  is_Some (data (local w)) →
  step (Fetched b) w = with_local (set_data (Some b)) w.
Proof.
  intros [b0 Hb0]. unfold step, commit. cbn [handle]. unfold_ops. cbn.
  rewrite Hb0. cbn.
  rewrite (bool_decide_eq_true_2 (false = false)) by done. cbn.
  by rewrite bool_decide_eq_true_2.
Qed.

Lemma revalidation_keeps_working_copy_witness :
  let w := Demo.edited [] in
  let w' := @step specServices (Fetched Demo.publishedBundle) w in
  History.present (history (local w')) = Some Demo.renamed
  ∧ typebot (render (local w')) = Some Demo.doc
  ∧ publishedTypebot (render (local w')) = Some Demo.snapshot
  ∧ beforeunload (local w') = beforeunload (local w).
Proof.
  cbv zeta.
  rewrite (revalidation_keeps_working_copy specServices (Demo.edited [])
             Demo.publishedBundle) by (eexists; reflexivity).
  by split_and!.
Defined.

(** ** The update of both records *)



(** ** Publication, path by path *)

(** X3. A rejected flush does not stop a first publication: when the store
    rejects the draft that records the fresh identity and accepts the next
    request, the snapshot is created all the same.  The store then holds the
    snapshot while its drafts are as they were, and the only toast is the
    error of the flush. *)
Theorem publishTypebot_goes_on_after_rejected_flush
    (services : Services) r w l e rest :
  localTypebot r = Some l →
  publishedTypebot r = None →
  typebot r ≠ Some (identified l (nextUuid w)) →
  faults (remote w) = Some e :: None :: rest →
  let fresh := nextUuid w in
  let w' := exec (publishTypebot r) w in
  requests (remote w')
  = (CreatePublishedTypebot (firstSnapshot l fresh), None)
    :: (UpdateTypebot (Typebot.id l) (identified l fresh), Some e)
    :: requests (remote w)
  ∧ drafts (remote w') = drafts (remote w)
  ∧ snapshots (remote w')
    = <[fresh := firstSnapshot l fresh]> (snapshots (remote w))
  ∧ presentRef (local w') = Some (identified l fresh)
  ∧ toasts w' = mkToast "error" (Some (error_name e)) (message e) :: toasts w.
Proof.
  intros Hl Hp Hne Hfaults fresh w'. subst w' fresh.
  unfold nextUuid in *.
  unfold publishTypebot, exec. rewrite Hl, Hp.
  unfold updateLocalTypebot. rewrite Hl.
  unfold generate, setLocalTypebot, setIsPublishing. unfold_monad.
  cbn -[saveTypebot].
  fold (identified l (uuids (remote w) (generated (remote w)))).
  fold (firstSnapshot l (uuids (remote w) (generated (remote w)))).
  rewrite (saveTypebot_dirty _ _
             (identified l (uuids (remote w) (generated (remote w)))))
    by done.
  unfold flushed, createPublishedTypebot, receive. cbn.
  rewrite Hfaults. cbn. done.
Qed.

Lemma publishTypebot_goes_on_after_rejected_flush_witness :
  let w := Demo.loaded [Some Demo.boom; None] in
  let w' := exec (@publishTypebot specServices (render (local w))) w in
  drafts (remote w') !! "tb1" = Some Demo.doc
  ∧ snapshots (remote w') !! "snap-a"
    = Some (@firstSnapshot specServices Demo.doc "snap-a")
  ∧ toasts w' = [mkToast "error" (Some "Error") "Internal Server Error"].
Proof.
  destruct (publishTypebot_goes_on_after_rejected_flush specServices
              (render (local (Demo.loaded [Some Demo.boom; None])))
              (Demo.loaded [Some Demo.boom; None]) Demo.doc Demo.boom [])
    as (_ & Hdrafts & Hsnapshots & _ & Htoasts);
    [reflexivity | reflexivity | by vm_compute | reflexivity |].
  cbv zeta. split_and!.
  - rewrite Hdrafts. reflexivity.
  - rewrite Hsnapshots. reflexivity.
  - exact Htoasts.
Defined.

(** X11. When the working copy already records a snapshot identity, a
    publication by a session that sees its snapshot sends one request only,
    the update of that snapshot under the snapshot's own identity: the
    working copy, its history and the drafts are left alone, whether or not
    the recorded identity is the one of the snapshot, and the identity that
    was generated is not used. *)
Theorem publishTypebot_recorded (services : Services) r w l p i :
  localTypebot r = Some l →
  publishedTypebot r = Some p →
  Typebot.publishedTypebotId l = Some i →
  let w' := exec (publishTypebot r) w in
  requests (remote w')
  = (UpdatePublishedTypebot (PublicTypebot.id p) (nextSnapshot l p),
     mjoin (head (faults (remote w))))
    :: requests (remote w)
  ∧ history (local w') = history (local w)
  ∧ presentRef (local w') = presentRef (local w)
  ∧ drafts (remote w') = drafts (remote w)
  ∧ generated (remote w') = S (generated (remote w)).
Proof.
  intros Hl Hp Hi w'. subst w'.
  unfold publishTypebot, savePublishedTypebot, exec. rewrite Hl, Hp, Hi.
  unfold generate, setIsPublishing, updatePublishedTypebot, receive.
  unfold_monad. fold (nextSnapshot l p). cbn.
  by destruct (mjoin (head (faults (remote w)))).
Qed.

Lemma publishTypebot_recorded_witness :
  let w := Demo.recordedSession [] in
  let w' := exec (@publishTypebot specServices (render (local w))) w in
  requests (remote w')
  = [(UpdatePublishedTypebot "snap-0"
        (@nextSnapshot specServices (spread Demo.recorded Demo.rename)
           Demo.snapshot), None)]
  ∧ history (local w') = history (local w).
Proof.
  destruct (publishTypebot_recorded specServices
              (render (local (Demo.recordedSession [])))
              (Demo.recordedSession []) (spread Demo.recorded Demo.rename)
              Demo.snapshot "snap-0")
    as (Hrequests & Hhistory & _); [reflexivity..|].
  cbv zeta. split; [exact Hrequests | exact Hhistory].
Defined.

(** X12. After a first publication that the store accepted, the baseline of
    the cache is the working copy as it was when [publishTypebot] was called,
    not the one that records the public id and the snapshot identity: the
    flush of the next render finds them different and sends the working copy
    again. *)
Theorem publishTypebot_new_baseline (services : Services) r w l :
  localTypebot r = Some l →
  publishedTypebot r = None →
  let fresh := nextUuid w in
  let w' := exec (publishTypebot r) w in
  head (requests (remote w'))
  = Some (CreatePublishedTypebot (firstSnapshot l fresh), None) →
  typebot (render (local w')) = Some l
  ∧ presentRef (local w') = Some (identified l fresh)
  ∧ (identified l fresh ≠ l →
     ∃ e, requests (remote (exec (saveTypebot (render (local w'))) w'))
          = (UpdateTypebot (Typebot.id l) (identified l fresh), e)
            :: requests (remote w')).
Proof.
  intros Hl Hp fresh w'.
  assert (Hrun : head (requests (remote w'))
                 = Some (CreatePublishedTypebot (firstSnapshot l fresh), None)
                 → typebot (render (local w')) = Some l
                   ∧ presentRef (local w') = Some (identified l fresh)).
  { subst w' fresh. unfold nextUuid.
    unfold publishTypebot, exec. rewrite Hl, Hp.
    unfold updateLocalTypebot. rewrite Hl.
    unfold generate, setLocalTypebot, setIsPublishing. unfold_monad.
    cbn -[saveTypebot].
    fold (identified l (uuids (remote w) (generated (remote w)))).
    fold (firstSnapshot l (uuids (remote w) (generated (remote w)))).
    flush_step r.
    unfold createPublishedTypebot, receive. cbn.
    destruct (mjoin (head (faults (remote wf)))) as [e|]; cbn; [done|].
    by rewrite Href. }
  intros Hhead. destruct (Hrun Hhead) as [Hbase Href].
  split_and!; [done..|]. intros Hchanged.
  eexists. unfold exec at 1.
  rewrite (saveTypebot_dirty _ _ (identified l fresh));
    [|done|rewrite Hbase; congruence].
  cbn [snd]. by rewrite flushed_requests.
Qed.

Lemma publishTypebot_new_baseline_witness :
  let w := Demo.loaded [] in
  let w' := exec (@publishTypebot specServices (render (local w))) w in
  typebot (render (local w')) = Some Demo.doc
  ∧ presentRef (local w') = Some (@identified specServices Demo.doc "snap-a")
  ∧ ∃ e, requests (remote (exec (saveTypebot (render (local w'))) w'))
         = (UpdateTypebot "tb1" (@identified specServices Demo.doc "snap-a"), e)
           :: requests (remote w').
Proof.
  destruct (publishTypebot_new_baseline specServices
              (render (local (Demo.loaded []))) (Demo.loaded []) Demo.doc)
    as (Hbase & Href & Hagain); [reflexivity..|].
  cbv zeta. split_and!; [exact Hbase | exact Href |].
  apply Hagain. by vm_compute.
Defined.

(** ** The reference and the working copy *)

Lemma keeps_ret {A} I (a : A) : keeps I (mret a).
Proof. by intros w. Qed.

Lemma keeps_bind {A B} I (m : M A) (k : A → M B) :
  keeps I m → (∀ a, keeps I (k a)) → keeps I (m ≫= k).
Proof. intros Hm Hk w Hw. rewrite exec_bind. by apply Hk, Hm. Qed.

(** A computation that leaves history and reference alone keeps them in
    step. *)
Lemma keeps_inSync_frame {A} (m : M A) :
  (∀ w, history (local (exec m w)) = history (local w)
        ∧ presentRef (local (exec m w)) = presentRef (local w)) →
  keeps inSync m.
Proof. intros Hframe w Hw. unfold inSync. by destruct (Hframe w) as [-> ->]. Qed.

Lemma keeps_inSync_setLocalTypebot v : keeps inSync (setLocalTypebot v).
Proof. by intros w _. Qed.

Lemma keeps_inSync_saveTypebot r : keeps inSync (saveTypebot r).
Proof.
  apply keeps_inSync_frame. intros w.
  by destruct (saveTypebot_frame r w) as (-> & -> & _).
Qed.

Lemma keeps_inSync_savePublishedTypebot r p :
  keeps inSync (savePublishedTypebot r p).
Proof.
  apply keeps_inSync_frame. intros w. unfold_ops. cbn.
  by destruct (mjoin (head (faults (remote w)))).
Qed.

Lemma keeps_inSync_updateLocalTypebot r updates :
  keeps inSync (updateLocalTypebot r updates).
Proof.
  unfold updateLocalTypebot.
  destruct (localTypebot r); [apply keeps_inSync_setLocalTypebot|].
  apply keeps_ret.
Qed.

Section InSync.
Context {services : Services}.

Lemma keeps_inSync_handle e r : keeps inSync (handle e r).
Proof.
  pose proof keeps_inSync_saveTypebot as Hflush.
  pose proof keeps_inSync_savePublishedTypebot as Hsnapshot.
  pose proof keeps_inSync_updateLocalTypebot as Hupdate.
  destruct e; cbn [handle]; try done.
  - by apply keeps_inSync_frame.
  - unfold publishTypebot.
    destruct (localTypebot r) as [l|]; [|apply keeps_ret].
    apply keeps_bind; [by apply keeps_inSync_frame|intros fresh].
    apply keeps_bind; [|intros ?].
    { destruct (publishedTypebot r), (Typebot.publishedTypebotId l);
        try apply keeps_ret.
      apply keeps_bind; [apply Hupdate|intros ?; apply Hflush]. }
    apply keeps_bind; [|intros ?].
    { destruct (publishedTypebot r); [apply keeps_ret|].
      apply keeps_bind; [apply Hupdate|intros ?].
      apply keeps_bind; [apply Hflush|intros ?; apply keeps_ret]. }
    destruct (publishedTypebot r); [apply Hsnapshot|].
    apply keeps_inSync_frame. intros w. unfold_ops. cbn.
    by destruct (mjoin (head (faults (remote w)))).
  - unfold restorePublishedTypebot.
    destruct (publishedTypebot r), (localTypebot r); try apply keeps_ret.
    apply keeps_bind; [apply keeps_inSync_setLocalTypebot|intros ?].
    apply Hflush.
  - unfold updateOnBothTypebots.
    apply keeps_bind; [apply Hupdate|intros ?].
    apply keeps_bind; [apply Hflush|intros ?].
    destruct (publishedTypebot r); [apply Hsnapshot|apply keeps_ret].
  - apply keeps_inSync_frame. intros w. unfold_ops.
    destruct (typebot r); [|done]. cbn.
    destruct (mjoin (head (faults (remote w)))); [done|].
    by destruct (hooks (remote w) !! webhookId).
Qed.

Lemma keeps_inSync_commit r : keeps inSync (commit r).
Proof.
  unfold commit.
  apply keeps_bind; [by apply keeps_inSync_frame|intros r1].
  apply keeps_bind; [|intros ?].
  { destruct (bool_decide _); [apply keeps_ret|].
    unfold loadEffect. destruct (isLoading r1); [apply keeps_ret|].
    destruct (typebot r1); [apply keeps_inSync_setLocalTypebot|].
    by apply keeps_inSync_frame. }
  intros w Hw. unfold inSync in *. unfold unsavedChangesEffect. unfold_monad.
  cbn. destruct (bool_decide _); [done|].
  destruct (History.present (history (local w))) as [l|] eqn:Hl;
    [|cbn; congruence].
  destruct (data (local w) ≫= Bundle.typebot) as [t|]; [|cbn; congruence].
  unfold addBeforeunload, removeBeforeunload, modify.
  destruct (checkIfTypebotsAreEqual l t); cbn; congruence.
Qed.

End InSync.

(** X14. In every state a mounted session reaches, the reference that the
    flush reads holds the working copy that the history shows as current. *)
Theorem reference_follows_working_copy (services : Services) rem w :
  reachable (mounted rem) w →
  presentRef (local w) = History.present (history (local w)).
Proof.
  induction 1 as [|w e _ IH]; [done|].
  unfold step. by apply (keeps_bind inSync);
    [apply keeps_inSync_handle | intros ?; apply keeps_inSync_commit |].
Qed.

Lemma reference_follows_working_copy_witness :
  let w :=
    @run specServices
      [Fetched Demo.bundle; CallUpdateTypebot Demo.rename; CallUndo;
       CallPublishTypebot; CallRedo]
      (mounted (Demo.store [])) in
  presentRef (local w) = History.present (history (local w)).
Proof.
  apply (reference_follows_working_copy specServices (Demo.store [])).
  apply run_reachable.
Defined.
